(** * Rollback webhook: the rollback executor

    A shallow embedding of [services/rollback-webhook/src/webhook/rollback.py]
    (class [RollbackExecutor]), of the record types it uses from [models.py]
    and of the endpoints of [main.py], followed by the properties of the
    version store accessor, the process launcher, the rollback state machine
    and the application.

    Conventions of the embedding.
    - A Python [str] is a [list ascii]; a character stands for the code point
      of the same number (0..255).
    - The process runs on a POSIX host: text-mode reads translate ["\r\n"] and
      ["\r"] to ["\n"], text-mode writes leave ["\n"] as it is.
    - Python statements that can raise are computations in a state and
      exception monad [M]; [try]/[except] is [try_except].
    - The executor keeps its two paths as [pathlib] paths and asks
      [Path.exists], which raises when [stat] fails for another reason than
      a missing file; the endpoints ask [os.path.exists] on the text of the
      environment, which answers [False] on every failure.
    - A write can fail before the file is opened, and then nothing changes,
      or after the file has been truncated.
    - Logging and tracing spans are sinks with no influence on the control
      flow; they are left out, save for the context of the span that is
      current when a call starts, which the call reads. *)

From Stdlib Require Import List Ascii String ZArith Lia Bool.
From stdpp Require Import base option list gmap strings.
Import ListNotations.

Local Open Scope list_scope.

(** ** Python strings *)

Abbreviation text := (list ascii).

Definition txt (s : string) : text := list_ascii_of_string s.
Arguments txt : simpl never.

Definition LF : ascii := ascii_of_nat 10.
Definition CR : ascii := ascii_of_nat 13.

Module Str.

(** [str.isspace] on one character, for code points below 256:
    TAB, LF, VT, FF, CR, FS, GS, RS, US, SPACE, NEL and NBSP. *)
Definition isspace (c : ascii) : bool :=
  let n := nat_of_ascii c in
  ((9 <=? n) && (n <=? 13)) || ((28 <=? n) && (n <=? 32))
  || (n =? 133) || (n =? 160).

(** [s.lstrip()] *)
Fixpoint lstrip (s : text) : text :=
  match s with
  | [] => []
  | c :: s' => if isspace c then lstrip s' else s
  end.

(** [s.rstrip()] *)
Definition rstrip (s : text) : text := reverse (lstrip (reverse s)).

(** [s.strip()] *)
Definition strip (s : text) : text := rstrip (lstrip s).

(** [s.startswith(p)] *)
Fixpoint startswith (p s : text) : bool :=
  match p, s with
  | [], _ => true
  | _ :: _, [] => false
  | a :: p', b :: s' => Ascii.eqb a b && startswith p' s'
  end.

(** [s.split(sep, 1)] for a separator of one character: the text before
    the first [sep] and the text after it, or [s] alone. *)
Fixpoint split_once (sep : ascii) (s : text) : list text :=
  match s with
  | [] => [[]]
  | c :: s' =>
      if Ascii.eqb c sep then [[]; s']
      else match split_once sep s' with
           | h :: t => (c :: h) :: t
           | [] => [[c]]
           end
  end.

(** [s.upper()] on one character; the executor applies it to the values of
    [ServiceName] only, which are lower-case ASCII letters and hyphens. *)
Definition upper_char (c : ascii) : ascii :=
  let n := nat_of_ascii c in
  if (97 <=? n) && (n <=? 122) then ascii_of_nat (n - 32) else c.

Definition upper (s : text) : text := map upper_char s.

(** [s.replace(a, b)] for one-character [a] and [b]. *)
Definition replace_char (a b : ascii) (s : text) : text :=
  map (fun c => if Ascii.eqb c a then b else c) s.

End Str.

(** ** Text files *)

Module TextIO.

(** Universal newlines on reading: ["\r\n"] and a lone ["\r"] both become
    ["\n"]. As in the incremental decoder of the I/O library, [pendingcr]
    tells that the character before was a ["\r"], already translated. *)
Fixpoint translate_newlines (pendingcr : bool) (s : text) : text :=
  match s with
  | [] => []
  | c :: s' =>
      if Ascii.eqb c CR then LF :: translate_newlines true s'
      else if Ascii.eqb c LF then
        if pendingcr then translate_newlines false s'
        else LF :: translate_newlines false s'
      else c :: translate_newlines false s'
  end.

Definition universal_newlines (s : text) : text :=
  translate_newlines false s.

(** The lines of a text, each with its terminating ["\n"]; a last line
    without terminator is kept when it is not empty. [cur] is the line
    read so far, reversed. *)
Fixpoint split_lines (cur : text) (s : text) : list text :=
  match s with
  | [] => match cur with [] => [] | _ => [reverse cur] end
  | c :: s' =>
      if Ascii.eqb c LF then reverse (c :: cur) :: split_lines [] s'
      else split_lines (c :: cur) s'
  end.

(** [f.readlines()] (and [for line in f]) on the raw contents of a file
    opened with mode ["r"]. *)
Definition readlines (raw : text) : list text :=
  split_lines [] (universal_newlines raw).

(** What [f.writelines(lines)] leaves in a file opened with mode ["w"]. *)
Definition writelines (lines : list text) : text := concat lines.

End TextIO.

(** ** Data model ([models.py]) *)

Inductive RollbackStatus :=
| ROLLBACK_INITIATED
| ROLLBACK_IN_PROGRESS
| ROLLBACK_COMPLETED
| ROLLBACK_FAILED.

Inductive ServiceName :=
| ORDER_SERVICE
| INVENTORY_SERVICE
| PAYMENT_SERVICE.

(** [service.value] *)
Definition service_value (s : ServiceName) : text :=
  match s with
  | ORDER_SERVICE => txt "order-service"
  | INVENTORY_SERVICE => txt "inventory-service"
  | PAYMENT_SERVICE => txt "payment-service"
  end.

(** A naive UTC [datetime], as microseconds since the epoch. *)
Abbreviation datetime := Z.

Module RollbackRequest.
Record t := mk {
  service : ServiceName;
  target_version : text;
  alert_id : text;
  alert_name : option text;
  reason : text;
  triggered_at : option datetime;
  additional_context : option (list (text * text))
}.
End RollbackRequest.

Module RollbackResponse.
Record t := mk {
  status : RollbackStatus;
  message : text;
  service : ServiceName;
  previous_version : option text;
  target_version : text;
  rollback_id : text;
  started_at : datetime;
  completed_at : option datetime;
  error : option text;
  trace_id : option text
}.
End RollbackResponse.

(** ** Trace identifiers in records and in log lines *)

(** The digit of [d < 16] under the presentation type ['x']. *)
Definition hex_digit (d : N) : ascii :=
  nth (N.to_nat d) (txt "0123456789abcdef") "0"%char.

(** The digits of [n] in base 16, most significant first, in front of
    [acc]; [fuel] bounds the number of digits. *)
Fixpoint hex_of (fuel : nat) (n : N) (acc : text) : text :=
  match fuel with
  | O => acc
  | S fuel' =>
      let acc' := hex_digit (n mod 16) :: acc in
      if (n / 16 =? 0)%N then acc' else hex_of fuel' (n / 16) acc'
  end.

(** [format(n, "x")] for [n >= 0]; a number has no more hexadecimal digits
    than binary ones. *)
Definition hex (n : N) : text := hex_of (S (N.to_nat (N.log2 n))) n [].

(** [format(n, "0<width>x")] for [n >= 0]: zeros in front, up to [width]
    characters; a longer text is not cut. *)
Definition format_0x (width : nat) (n : N) : text :=
  replicate (width - length (hex n)) "0"%char ++ hex n.

(** The value of a hexadecimal digit, if it is one. *)
Definition digit_value (c : ascii) : option N :=
  let n := nat_of_ascii c in
  if (48 <=? n) && (n <=? 57) then Some (N.of_nat (n - 48))
  else if (97 <=? n) && (n <=? 102) then Some (N.of_nat (n - 87))
  else None.

(** [int(s, 16)] for a text of lower-case hexadecimal digits; [acc] is the
    value of the digits read so far. *)
Fixpoint parse_hex (acc : N) (s : text) : option N :=
  match s with
  | [] => Some acc
  | c :: s' =>
      match digit_value c with
      | Some d => parse_hex (acc * 16 + d) s'
      | None => None
      end
  end.

(** What the code reads of the current span: the two identifiers of its
    context and whether the context is valid. *)
Record SpanContext := {
  trace_id : N;
  span_id : N;
  is_valid : bool
}.

(** The two attributes that [TraceContextFilter.filter] puts on a log
    record, and its result. *)
Record FilteredRecord := {
  otelTraceID : text;
  otelSpanID : text;
  passes : bool
}.

(** [TraceContextFilter.filter] *)
Definition filter_record (span : SpanContext) : FilteredRecord :=
  if is_valid span then
    {| otelTraceID := format_0x 32 (trace_id span);
       otelSpanID := format_0x 16 (span_id span);
       passes := true |}
  else
    {| otelTraceID := replicate 32 "0"%char;
       otelSpanID := replicate 16 "0"%char;
       passes := true |}.

(** The [trace_id] that [execute_rollback] computes from the current span
    before its first step: [None], or [format(trace_id, "032x")] when the
    context of the span is valid. *)
Definition rollback_trace_id (span : SpanContext) : option text :=
  if is_valid span then Some (format_0x 32 (trace_id span)) else None.

(** ** The host: files, child processes, clock *)

(** What a path names. A path absent from the file table does not exist.
    [Regular data writable] is a file that opens for reading and decodes to
    [data]; it opens for writing when [writable]. [Unreadable] exists but
    cannot be read as text (no permission, a directory, undecodable bytes).
    [Fragile data after] reads as [data] and opens for writing, but the
    write fails once the file has been truncated (a full disk, a quota); the
    path then names [after]. On [NoStat msg] the system call [stat] fails
    with an error other than "no such file" (access denied on a directory of
    the path, a name too long); [msg] is the text of the [OSError]. *)
Inductive node :=
| Regular (data : text) (writable : bool)
| Unreadable
| Fragile (data : text) (after : node)
| NoStat (msg : text).

(** How a call of [subprocess.run] ends: the child exits, the timeout
    expires, or the call raises something else (binary not found, permission
    denied). The texts of the last two are [str(e)]. *)
Inductive outcome :=
| Exited (returncode : Z) (stdout stderr : text)
| TimedOut (msg : text)
| LaunchFailed (msg : text).

(** What the code cannot decide by itself: how each command ends when the
    executor runs it, with the timeouts of [rollback.py] (5 seconds for
    [docker info] and for the probe, 60 for the restart); how it ends when
    an endpoint of [main.py] runs it with a timeout of 2 seconds; what the
    clock shows at each reading; how the interpreter renders a datetime with
    ['%Y%m%d-%H%M%S'], a duration with [:.2f] and a [ServiceName] inside an
    f-string; and the context of the span that is current when a call
    starts. *)
Record Runtime := {
  run_outcome : list text -> outcome;
  run_outcome_2s : list text -> outcome;
  clock : nat -> datetime;
  strftime : datetime -> text;
  format_seconds : datetime -> datetime -> text;
  format_service : ServiceName -> text;
  current_span : SpanContext
}.

(** The mutable part of the host: the file table, the commands handed to
    [subprocess.run] so far (oldest first) and the number of clock readings.
    Child processes are taken not to touch the file table. *)
Record Sys := {
  files : gmap text node;
  commands : list (list text);
  ticks : nat
}.

Inductive exn :=
| TimeoutExpired (msg : text)
| Exception (msg : text).

(** [str(e)] *)
Definition exn_str (e : exn) : text :=
  match e with
  | TimeoutExpired msg => msg
  | Exception msg => msg
  end.

Inductive result (A : Type) :=
| Ok (a : A)
| Raise (e : exn).
Arguments Ok {A} a.
Arguments Raise {A} e.

(** Computations that read and change the host and may raise. *)
Definition M (A : Type) : Type := Sys -> result A * Sys.

Definition ret {A} (a : A) : M A := fun s => (Ok a, s).

Definition raise {A} (e : exn) : M A := fun s => (Raise e, s).

Definition bind {A B} (m : M A) (k : A -> M B) : M B :=
  fun s =>
    match m s with
    | (Ok a, s') => k a s'
    | (Raise e, s') => (Raise e, s')
    end.

(** [try: m  except ... as e: h e] *)
Definition try_except {A} (m : M A) (h : exn -> M A) : M A :=
  fun s =>
    match m s with
    | (Ok a, s') => (Ok a, s')
    | (Raise e, s') => h e s'
    end.

Notation "x <- m ;; k" := (bind m (fun x => k))
  (at level 100, m at next level, right associativity).

(** [os.stat(p)], as far as existence goes: the file is there, it is not,
    or the call fails with another [OSError]. *)
Definition stat (s : Sys) (p : text) : result bool :=
  match files s !! p with
  | None => Ok false
  | Some (NoStat msg) => Raise (Exception msg)
  | Some (Regular _ _) | Some Unreadable | Some (Fragile _ _) => Ok true
  end.

(** [path.exists()] of [pathlib]: a missing file gives [False], any other
    failure of [stat] is raised again. *)
Definition path_exists (p : text) : M bool :=
  fun s => (stat s p, s).

(** What [os.path.exists(p)] answers on host [s]: every failure of [stat]
    gives [False]. *)
Definition found (s : Sys) (p : text) : bool :=
  match stat s p with
  | Ok b => b
  | Raise _ => false
  end.

(** [os.path.exists(p)] *)
Definition os_path_exists (p : text) : M bool :=
  fun s => (Ok (found s p), s).

(** [with open(p, "r") as f: f.readlines()] *)
Definition open_read (p : text) : M (list text) :=
  fun s =>
    match files s !! p with
    | Some (Regular data _) | Some (Fragile data _) =>
        (Ok (TextIO.readlines data), s)
    | Some Unreadable =>
        (Raise (Exception (txt "[Errno 13] Permission denied: '" ++ p ++ txt "'")), s)
    | Some (NoStat msg) => (Raise (Exception msg), s)
    | None =>
        (Raise (Exception (txt "[Errno 2] No such file or directory: '" ++ p ++ txt "'")), s)
    end.

(** [with open(p, "w") as f: f.writelines(lines)]: the file is truncated (or
    created) and filled. A file that does not open for writing is left as it
    is; on a [Fragile] file the call fails after the truncation. *)
Definition open_write (p : text) (lines : list text) : M unit :=
  fun s =>
    match files s !! p with
    | Some (Regular _ true) | None =>
        (Ok tt,
         {| files := <[p := Regular (TextIO.writelines lines) true]> (files s);
            commands := commands s;
            ticks := ticks s |})
    | Some (Fragile _ after) =>
        (Raise (Exception (txt "[Errno 28] No space left on device")),
         {| files := <[p := after]> (files s);
            commands := commands s;
            ticks := ticks s |})
    | Some (Regular _ false) | Some Unreadable =>
        (Raise (Exception (txt "[Errno 13] Permission denied: '" ++ p ++ txt "'")), s)
    | Some (NoStat msg) => (Raise (Exception msg), s)
    end.

Record CompletedProcess := {
  returncode : Z;
  stdout : text;
  stderr : text
}.

(** [subprocess.run(cmd, capture_output=True, timeout=...)] *)
Definition subprocess_run (rt : Runtime) (cmd : list text) : M CompletedProcess :=
  fun s =>
    let s' := {| files := files s;
                 commands := commands s ++ [cmd];
                 ticks := ticks s |} in
    match run_outcome rt cmd with
    | Exited rc out err =>
        (Ok {| returncode := rc; stdout := out; stderr := err |}, s')
    | TimedOut msg => (Raise (TimeoutExpired msg), s')
    | LaunchFailed msg => (Raise (Exception msg), s')
    end.

(** [subprocess.run(cmd, capture_output=True, timeout=2)], the call of the
    health and readiness endpoints. *)
Definition subprocess_run_2s (rt : Runtime) (cmd : list text)
  : M CompletedProcess :=
  fun s =>
    let s' := {| files := files s;
                 commands := commands s ++ [cmd];
                 ticks := ticks s |} in
    match run_outcome_2s rt cmd with
    | Exited rc out err =>
        (Ok {| returncode := rc; stdout := out; stderr := err |}, s')
    | TimedOut msg => (Raise (TimeoutExpired msg), s')
    | LaunchFailed msg => (Raise (Exception msg), s')
    end.

(** [datetime.utcnow()] *)
Definition utcnow (rt : Runtime) : M datetime :=
  fun s =>
    (Ok (clock rt (ticks s)),
     {| files := files s; commands := commands s; ticks := S (ticks s) |}).

(** ** The executor ([rollback.py]) *)

(** [str(pathlib.Path(p))] on a POSIX host. The root is ["//"] for exactly
    two leading slashes and ["/"] for one or for more than two; empty
    components and ["."] components are dropped; a path with neither root
    nor component is ["."]. *)
Fixpoint split_path (cur : text) (p : text) : list text :=
  match p with
  | [] => [reverse cur]
  | c :: p' =>
      if Ascii.eqb c "/"%char then reverse cur :: split_path [] p'
      else split_path (c :: cur) p'
  end.

Fixpoint leading_slashes (p : text) : nat :=
  match p with
  | c :: p' => if Ascii.eqb c "/"%char then S (leading_slashes p') else 0
  | [] => 0
  end.

Fixpoint join_path (parts : list text) : text :=
  match parts with
  | [] => []
  | [part] => part
  | part :: rest => part ++ "/"%char :: join_path rest
  end.

Definition Path_str (p : text) : text :=
  let root :=
    match leading_slashes p with
    | 0 => []
    | 2 => txt "//"
    | _ => txt "/"
    end in
  let parts :=
    List.filter
      (fun part => negb (bool_decide (part = []))
                   && negb (bool_decide (part = txt ".")))
      (split_path [] p) in
  match root ++ join_path parts with
  | [] => txt "."
  | c :: rest => c :: rest
  end.

(** The fields of a [RollbackExecutor]; the two paths are kept as the text
    that [str] gives of them. *)
Record RollbackExecutor := {
  compose_file : text;
  env_file : text;
  last_rollback : option RollbackResponse.t;
  total_rollbacks : Z
}.

(** [RollbackExecutor.__init__] *)
Definition init (compose_file env_file : text) : RollbackExecutor :=
  {| compose_file := Path_str compose_file;
     env_file := Path_str env_file;
     last_rollback := None;
     total_rollbacks := 0 |}.

(** [RollbackExecutor._get_env_var_name] *)
Definition _get_env_var_name (service : ServiceName) : text :=
  let service_upper :=
    Str.replace_char "-"%char "_"%char (Str.upper (service_value service)) in
  service_upper ++ txt "_VERSION".

(** [RollbackExecutor.validate_environment] *)
Definition validate_environment (rt : Runtime) (self : RollbackExecutor)
  : M (bool * text) :=
  env_exists <- path_exists (env_file self) ;;
  if negb env_exists then
    ret (false, txt "Environment file not found: " ++ env_file self)
  else
    compose_exists <- path_exists (compose_file self) ;;
    if negb compose_exists then
      ret (false, txt "Docker Compose file not found: " ++ compose_file self)
    else
      try_except
        (result <- subprocess_run rt [txt "docker"; txt "info"] ;;
         if negb (returncode result =? 0)%Z then
           ret (false, txt "Docker not available: " ++ stderr result)
         else ret (true, []))
        (fun e => ret (false, txt "Docker not available: " ++ exn_str e)).

(** The loop of [get_current_version] over the lines of the file. Indexing
    the result of [split] raises [IndexError] when there is no second part. *)
Fixpoint scan_lines (env_var : text) (lines : list text) : M (option text) :=
  match lines with
  | [] => ret None
  | line :: rest =>
      let line := Str.strip line in
      if Str.startswith (env_var ++ txt "=") line then
        match Str.split_once "="%char line !! 1%nat with
        | Some value => ret (Some (Str.strip value))
        | None => raise (Exception (txt "list index out of range"))
        end
      else scan_lines env_var rest
  end.

(** [RollbackExecutor.get_current_version] *)
Definition get_current_version (self : RollbackExecutor) (service : ServiceName)
  : M (option text) :=
  let env_var := _get_env_var_name service in
  try_except
    (lines <- open_read (env_file self) ;;
     scan_lines env_var lines)
    (fun _ => ret None).

(** The index at which the loop of [update_service_version] breaks: the
    first [i >= start] whose line, stripped, starts with [env_var=]. *)
Fixpoint first_match (env_var : text) (lines : list text) (start : nat)
  : option nat :=
  match lines with
  | [] => None
  | line :: rest =>
      if Str.startswith (env_var ++ txt "=") (Str.strip line) then Some start
      else first_match env_var rest (S start)
  end.

(** The line [f"{env_var}={version}\n"]. *)
Definition new_line (env_var version : text) : text :=
  env_var ++ txt "=" ++ version ++ [LF].

(** The list that [update_service_version] writes back. *)
Definition update_lines (env_var version : text) (lines : list text)
  : list text :=
  match first_match env_var lines 0 with
  | Some i => <[i := new_line env_var version]> lines
  | None => lines ++ [new_line env_var version]
  end.

(** [RollbackExecutor.update_service_version] *)
Definition update_service_version (self : RollbackExecutor)
  (service : ServiceName) (version : text) : M bool :=
  let env_var := _get_env_var_name service in
  try_except
    (lines <- open_read (env_file self) ;;
     _ <- open_write (env_file self) (update_lines env_var version lines) ;;
     ret true)
    (fun _ => ret false).

(** The command line that [restart_service] builds. *)
Definition restart_command (self : RollbackExecutor) (service : ServiceName)
  (compose_cmd : list text) : list text :=
  compose_cmd ++
  [txt "-f"; compose_file self; txt "--env-file"; env_file self;
   txt "up"; txt "-d"; txt "--no-deps"; service_value service].

Definition compose_v2 : list text := [txt "docker"; txt "compose"].
Definition compose_v1 : list text := [txt "docker-compose"].

(** [RollbackExecutor.restart_service] *)
Definition restart_service (rt : Runtime) (self : RollbackExecutor)
  (service : ServiceName) : M (bool * text) :=
  try_except
    (test_result <- subprocess_run rt (compose_v2 ++ [txt "version"]) ;;
     let compose_cmd :=
       if negb (returncode test_result =? 0)%Z then compose_v1
       else compose_v2 in
     let cmd := restart_command self service compose_cmd in
     result <- subprocess_run rt cmd ;;
     if (returncode result =? 0)%Z then ret (true, stdout result)
     else ret (false, stderr result))
    (fun e =>
       match e with
       | TimeoutExpired _ =>
           ret (false, txt "Timeout while restarting " ++ format_service rt service)
       | Exception msg =>
           ret (false,
                txt "Error restarting " ++ format_service rt service
                ++ txt ": " ++ msg)
       end).

(** [self.last_rollback = response] *)
Definition set_last_rollback (self : RollbackExecutor)
  (response : RollbackResponse.t) : RollbackExecutor :=
  {| compose_file := compose_file self;
     env_file := env_file self;
     last_rollback := Some response;
     total_rollbacks := total_rollbacks self |}.

(** [self.total_rollbacks += 1] *)
Definition count_rollback (self : RollbackExecutor) : RollbackExecutor :=
  {| compose_file := compose_file self;
     env_file := env_file self;
     last_rollback := last_rollback self;
     total_rollbacks := total_rollbacks self + 1 |}.

(** [previous_version or 'unknown'] *)
Definition or_unknown (previous_version : option text) : text :=
  match previous_version with
  | Some (c :: s) => c :: s
  | Some [] | None => txt "unknown"
  end.

(** [RollbackExecutor.execute_rollback]: the response, and the executor as
    the call leaves it. *)
Definition execute_rollback (rt : Runtime) (self : RollbackExecutor)
  (request : RollbackRequest.t) : M (RollbackResponse.t * RollbackExecutor) :=
  let service := RollbackRequest.service request in
  let target_version := RollbackRequest.target_version request in
  id_time <- utcnow rt ;;
  let rollback_id :=
    txt "rb-" ++ strftime rt id_time ++ txt "-" ++ service_value service in
  started_at <- utcnow rt ;;
  let trace_id := rollback_trace_id (current_span rt) in
  (* Step 1: validate environment *)
  validation <- validate_environment rt self ;;
  let '(is_valid, error_msg) := validation in
  if negb is_valid then
    now <- utcnow rt ;;
    let response :=
      RollbackResponse.mk ROLLBACK_FAILED
        (txt "Rollback validation failed: " ++ error_msg)
        service None target_version rollback_id started_at (Some now)
        (Some error_msg) trace_id in
    ret (response, set_last_rollback self response)
  else
    (* Step 2: get current version *)
    previous_version <- get_current_version self service ;;
    (* Step 3: update the version file *)
    updated <- update_service_version self service target_version ;;
    if negb updated then
      let error_msg := txt "Failed to update .env file" in
      now <- utcnow rt ;;
      let response :=
        RollbackResponse.mk ROLLBACK_FAILED
          (txt "Rollback failed: " ++ error_msg)
          service previous_version target_version rollback_id started_at
          (Some now) (Some error_msg) trace_id in
      ret (response, set_last_rollback self response)
    else
      (* Step 4: restart the service *)
      restarted <- restart_service rt self service ;;
      let '(success, output) := restarted in
      if negb success then
        let error_msg := txt "Failed to restart service: " ++ output in
        now <- utcnow rt ;;
        let response :=
          RollbackResponse.mk ROLLBACK_FAILED
            (txt "Rollback failed during service restart: " ++ output)
            service previous_version target_version rollback_id started_at
            (Some now) (Some error_msg) trace_id in
        ret (response, set_last_rollback self response)
      else
        completed_at <- utcnow rt ;;
        let message :=
          txt "Successfully rolled back " ++ service_value service
          ++ txt " from " ++ or_unknown previous_version
          ++ txt " to " ++ target_version
          ++ txt " in " ++ format_seconds rt started_at completed_at
          ++ txt " seconds" in
        let response :=
          RollbackResponse.mk ROLLBACK_COMPLETED message
            service previous_version target_version rollback_id started_at
            (Some completed_at) None trace_id in
        ret (response, count_rollback (set_last_rollback self response)).

(** A sequence of calls of [execute_rollback] on one executor, each request
    with the runtime it meets. A call that raises has assigned nothing to
    the executor, and the caller goes on with the next request. The result
    is the outcome of each call in order, the executor after the last call
    and the host it leaves. *)
Fixpoint run_rollbacks (self : RollbackExecutor)
  (calls : list (Runtime * RollbackRequest.t)) (s : Sys)
  : list (result RollbackResponse.t) * RollbackExecutor * Sys :=
  match calls with
  | [] => ([], self, s)
  | (rt, request) :: rest =>
      match execute_rollback rt self request s with
      | (Ok (response, self'), s') =>
          let '(outcomes, self'', s'') := run_rollbacks self' rest s' in
          (Ok response :: outcomes, self'', s'')
      | (Raise e, s') =>
          let '(outcomes, self'', s'') := run_rollbacks self rest s' in
          (Raise e :: outcomes, self'', s'')
      end
  end.

(** The records of the calls that returned, in order. *)
Fixpoint returned (outcomes : list (result RollbackResponse.t))
  : list RollbackResponse.t :=
  match outcomes with
  | [] => []
  | Ok response :: rest => response :: returned rest
  | Raise _ :: rest => returned rest
  end.

(** How many of the responses carry the status [st]. *)
Definition status_eqb (a b : RollbackStatus) : bool :=
  match a, b with
  | ROLLBACK_INITIATED, ROLLBACK_INITIATED
  | ROLLBACK_IN_PROGRESS, ROLLBACK_IN_PROGRESS
  | ROLLBACK_COMPLETED, ROLLBACK_COMPLETED
  | ROLLBACK_FAILED, ROLLBACK_FAILED => true
  | _, _ => false
  end.

Fixpoint count_status (st : RollbackStatus)
  (responses : list RollbackResponse.t) : nat :=
  match responses with
  | [] => 0
  | r :: rest =>
      (if status_eqb (RollbackResponse.status r) st then 1 else 0)
      + count_status st rest
  end.

(** ** The web application ([main.py]) *)

Definition SERVICE_VERSION : text := txt "1.0.0".

(** [os.getenv(name, fallback)] on the environment of the process. *)
Definition getenv (environ : gmap text text) (name fallback : text) : text :=
  default fallback (environ !! name).

Module HealthResponse.
Record t := mk {
  status : text;
  version : text;
  environment : text;
  docker_available : bool
}.
End HealthResponse.

Module ReadyResponse.
Record t := mk {
  ready : bool;
  checks : list (text * bool)
}.
End ReadyResponse.

(** The uptime is a difference of two readings of [time.time()], a float;
    its type is left open. *)
Module StatusResponse.
Record t (F : Type) := mk {
  last_rollback : option RollbackResponse.t;
  total_rollbacks : Z;
  service_uptime_seconds : F
}.
Arguments mk {F} _ _ _.
Arguments last_rollback {F} _.
Arguments total_rollbacks {F} _.
Arguments service_uptime_seconds {F} _.
End StatusResponse.

(** [d[k] = v] on a dict kept in insertion order. *)
Fixpoint dict_set (d : list (text * bool)) (k : text) (v : bool)
  : list (text * bool) :=
  match d with
  | [] => [(k, v)]
  | (k', v') :: rest =>
      if decide (k' = k) then (k', v) :: rest
      else (k', v') :: dict_set rest k v
  end.


(** [health] *)
Definition health (environ : gmap text text) (rt : Runtime)
  : M HealthResponse.t :=
  docker_available <-
    try_except
      (result <- subprocess_run_2s rt [txt "docker"; txt "info"] ;;
       ret (returncode result =? 0)%Z)
      (fun _ => ret false) ;;
  ret (HealthResponse.mk (txt "healthy") SERVICE_VERSION
         (getenv environ (txt "ENVIRONMENT") (txt "local"))
         docker_available).

(** [ready] *)
Definition ready (environ : gmap text text) (rt : Runtime)
  : M ReadyResponse.t :=
  let checks :=
    [(txt "docker", false); (txt "env_file", false);
     (txt "compose_file", false)] in
  checks <-
    try_except
      (result <- subprocess_run_2s rt [txt "docker"; txt "info"] ;;
       ret (dict_set checks (txt "docker") (returncode result =? 0)%Z))
      (fun _ => ret checks) ;;
  let env_file := getenv environ (txt "ENV_FILE") (txt "/app/infra/.env") in
  env_exists <- os_path_exists env_file ;;
  let checks := dict_set checks (txt "env_file") env_exists in
  let compose_file :=
    getenv environ (txt "COMPOSE_FILE") (txt "/app/infra/docker-compose.yml") in
  compose_exists <- os_path_exists compose_file ;;
  let checks := dict_set checks (txt "compose_file") compose_exists in
  let all_ready := forallb snd checks in
  ret (ReadyResponse.mk all_ready checks).





(** ** Conditions on the version file and on version labels *)

(** A line that ends with ["\n"]. *)
Definition terminated (line : text) : bool :=
  match reverse line with
  | c :: _ => Ascii.eqb c LF
  | [] => false
  end.

(** Every line, the last one included, ends with ["\n"]. *)
Definition newline_terminated (lines : list text) : bool :=
  forallb terminated lines.

(** The test both loops apply to a line: stripped, it starts with
    [env_var=]. *)
Definition matches (env_var : text) (line : text) : bool :=
  Str.startswith (env_var ++ txt "=") (Str.strip line).

(** Some line pins the service. *)
Definition has_key (service : ServiceName) (lines : list text) : bool :=
  existsb (matches (_get_env_var_name service)) lines.

(** The lines of the version file as the executor reads them; no lines when
    the file is missing or unreadable. *)
Definition store_lines (self : RollbackExecutor) (s : Sys) : list text :=
  match files s !! env_file self with
  | Some (Regular data _) | Some (Fragile data _) => TextIO.readlines data
  | _ => []
  end.

(** A version label that a line of the file can carry and give back: no
    white space at either end and no line break inside. *)
Definition clean_version (version : text) : Prop :=
  Str.strip version = version /\ (LF ∉ version) /\ (CR ∉ version).

(** The read of the version store as the design document words it: the
    first line whose trimmed text starts with the derived key and ["="]
    gives the value, which is what follows that prefix, trimmed; a missing
    or unreadable file and a file without such a line give nothing. *)
Definition readVersion_spec (store : option node) (service : ServiceName)
  : option text :=
  let key := _get_env_var_name service in
  match store with
  | Some (Regular data _) | Some (Fragile data _) =>
      match List.find (matches key) (TextIO.readlines data) with
      | Some line => Some (Str.strip (drop (length key + 1) (Str.strip line)))
      | None => None
      end
  | Some Unreadable | Some (NoStat _) | None => None
  end.

(** The frame of an update, on the lines before and after it: the first
    line that matches the key is replaced by [new] and all others stay in
    place, or no line matches and [new] is added after the last line. *)
Definition rewrites_only_key_line (key new : text)
  (before after : list text) : Prop :=
  (exists pre l post,
      before = pre ++ l :: post
      /\ Forall (fun x => matches key x = false) pre
      /\ matches key l = true
      /\ after = pre ++ new :: post)
  \/ (Forall (fun x => matches key x = false) before
      /\ after = before ++ [new]).

(** The shape of what [readlines] returns: every line but the last is
    a text without ["\n"] followed by ["\n"]; the last line may lack the
    terminator, and is then not empty. *)
Inductive lines_wf : list text -> Prop :=
| lines_wf_nil : lines_wf []
| lines_wf_last (l : text) : l <> [] -> LF ∉ l -> lines_wf [l]
| lines_wf_cons (body : text) (ls : list text) :
    LF ∉ body -> lines_wf ls -> lines_wf ((body ++ [LF]) :: ls).

(** The probe of [restart_service]: [compose_cmd + ["version"]] for the
    first choice of [compose_cmd]. *)
Definition probe_command : list text := compose_v2 ++ [txt "version"].

(** The two texts that the handlers of [restart_service] build. *)
Definition timeout_message (rt : Runtime) (service : ServiceName) : text :=
  txt "Timeout while restarting " ++ format_service rt service.

Definition error_message (rt : Runtime) (service : ServiceName) (msg : text)
  : text :=
  txt "Error restarting " ++ format_service rt service ++ txt ": " ++ msg.

(** The response of a call of [execute_rollback] that starts on host [s],
    up to the four fields in which the paths differ: the identifier and the
    start time come from the first two clock readings, the completion time
    from the third. *)
Definition response_on (rt : Runtime) (request : RollbackRequest.t) (s : Sys)
  (status : RollbackStatus) (message : text) (previous_version : option text)
  (error : option text) : RollbackResponse.t :=
  let service := RollbackRequest.service request in
  RollbackResponse.mk status message service previous_version
    (RollbackRequest.target_version request)
    (txt "rb-" ++ strftime rt (clock rt (ticks s)) ++ txt "-"
       ++ service_value service)
    (clock rt (S (ticks s)))
    (Some (clock rt (S (S (ticks s)))))
    error
    (rollback_trace_id (current_span rt)).

(** The command of the Docker check. *)
Definition docker_info : list text := [txt "docker"; txt "info"].

(** The commands that [validate_environment] hands to [subprocess.run] on
    host [s]: the Docker check when both files exist, none otherwise. *)
Definition validation_commands (self : RollbackExecutor) (s : Sys)
  : list (list text) :=
  match stat s (env_file self), stat s (compose_file self) with
  | Ok true, Ok true => [docker_info]
  | _, _ => []
  end.

(** The commands that [restart_service] hands to [subprocess.run]: the
    probe, and the restart command when the probe has exited. *)
Definition restart_commands (rt : Runtime) (self : RollbackExecutor)
  (service : ServiceName) : list (list text) :=
  probe_command ::
  match run_outcome rt probe_command with
  | Exited rcp _ _ =>
      [restart_command self service
         (if (rcp =? 0)%Z then compose_v2 else compose_v1)]
  | TimedOut _ | LaunchFailed _ => []
  end.

(** The Docker check of the endpoints has exited with status 0 within its
    two seconds. *)
Definition docker_info_ok (rt : Runtime) : bool :=
  match run_outcome_2s rt docker_info with
  | Exited rc _ _ => (rc =? 0)%Z
  | TimedOut _ | LaunchFailed _ => false
  end.

(** The result of the Docker check of [validate_environment], within its
    five seconds. *)
Definition docker_check (rt : Runtime) : bool * text :=
  match run_outcome rt docker_info with
  | Exited rc _ err =>
      if (rc =? 0)%Z then (true, [])
      else (false, txt "Docker not available: " ++ err)
  | TimedOut msg | LaunchFailed msg =>
      (false, txt "Docker not available: " ++ msg)
  end.

(** The exception that [validate_environment] lets through on host [s], if
    any: that of the first [exists] whose [stat] fails. The second file is
    looked at only when the first one exists. *)
Definition validation_error (self : RollbackExecutor) (s : Sys) : option exn :=
  match stat s (env_file self) with
  | Raise e => Some e
  | Ok false => None
  | Ok true =>
      match stat s (compose_file self) with
      | Raise e => Some e
      | Ok _ => None
      end
  end.

(** ** Concrete hosts *)

(** The executor with the default paths of [__init__]. *)
Definition default_executor : RollbackExecutor :=
  init (txt "/app/infra/docker-compose.yml") (txt "/app/infra/.env").

(** A host on which both files exist; the version file holds [raw]. *)
Definition host_with (raw : text) : Sys :=
  {| files :=
       <[txt "/app/infra/.env" := Regular raw true]>
         (<[txt "/app/infra/docker-compose.yml" := Regular [] true]> ∅);
     commands := [];
     ticks := 0 |}.

(** A host on which the version file holds [raw] and is read-only. *)
Definition host_read_only (raw : text) : Sys :=
  {| files :=
       <[txt "/app/infra/.env" := Regular raw false]>
         (<[txt "/app/infra/docker-compose.yml" := Regular [] true]> ∅);
     commands := [];
     ticks := 0 |}.

(** A host on which the version file holds [raw] and a write to it fails
    after the truncation: the file is then empty. *)
Definition host_disk_full (raw : text) : Sys :=
  {| files :=
       <[txt "/app/infra/.env" := Fragile raw (Regular [] true)]>
         (<[txt "/app/infra/docker-compose.yml" := Regular [] true]> ∅);
     commands := [];
     ticks := 0 |}.

(** A host on which [stat] is denied on the version file. *)
Definition host_stat_denied : Sys :=
  {| files :=
       <[txt "/app/infra/.env" :=
           NoStat (txt "[Errno 13] Permission denied: '/app/infra/.env'")]>
         (<[txt "/app/infra/docker-compose.yml" := Regular [] true]> ∅);
     commands := [];
     ticks := 0 |}.

(** A host without the version file. *)
Definition host_without_store : Sys :=
  {| files := <[txt "/app/infra/docker-compose.yml" := Regular [] true]> ∅;
     commands := [];
     ticks := 0 |}.

(** A runtime given by the way commands end; the clock counts its readings
    and the renderings are fixed texts. *)
Definition runtime_of (outcomes : list text -> outcome) : Runtime :=
  {| run_outcome := outcomes;
     run_outcome_2s := outcomes;
     clock := fun n => Z.of_nat n;
     strftime := fun _ => txt "20251209-153045";
     format_seconds := fun _ _ => txt "0.00";
     format_service := service_value;
     current_span := {| trace_id := 0; span_id := 0; is_valid := false |} |}.

Definition request_for (service : ServiceName) (target_version : text)
  : RollbackRequest.t :=
  RollbackRequest.mk service target_version (txt "alert-1") None
    (txt "SLO burn rate exceeded") None None.

(** Commands end as follows: the probe times out, [docker info] and a
    restart through [docker-compose] would succeed. *)
Definition probe_times_out (cmd : list text) : outcome :=
  if decide (cmd = probe_command) then
    TimedOut (txt "Command '['docker', 'compose', 'version']' timed out after 5 seconds")
  else Exited 0 (txt "Container order-service  Started") [].

(** The probe exits with status 1, every other command with status 0. *)
Definition probe_exits_nonzero (cmd : list text) : outcome :=
  if decide (cmd = probe_command) then
    Exited 1 [] (txt "docker: 'compose' is not a docker command.")
  else Exited 0 (txt "Container order-service  Started") [].

(** Every command exits with status 0. *)
Definition all_succeed (cmd : list text) : outcome :=
  Exited 0 (txt "Container order-service  Started") [].

(** The restart of the order service through [docker compose] exits with
    status 1; the other commands exit with status 0. *)
Definition restart_exits_nonzero (cmd : list text) : outcome :=
  if decide (cmd = restart_command default_executor ORDER_SERVICE compose_v2)
  then Exited 1 [] (txt "Container not found")
  else Exited 0 [] [].

(** A valid span context, with identifiers of 128 and 64 bits. *)
Definition sample_span : SpanContext :=
  {| trace_id := 0x4a8d3f6b2e1c9a7b5d3e1f9c8a6b4d2e;
     span_id := 0x00f067aa0ba902b7;
     is_valid := true |}.

(** The runtime of [runtime_of] under the span [span]. *)
Definition runtime_under (span : SpanContext)
  (outcomes : list text -> outcome) : Runtime :=
  {| run_outcome := outcomes;
     run_outcome_2s := outcomes;
     clock := fun n => Z.of_nat n;
     strftime := fun _ => txt "20251209-153045";
     format_seconds := fun _ _ => txt "0.00";
     format_service := service_value;
     current_span := span |}.

(** * Properties *)

(** ** Strings *)

Section StrFacts.

Lemma lstrip_length (s : text) : length (Str.lstrip s) <= length s.
Proof.
  induction s as [|c s IH]; simpl; [lia|].
  destruct (Str.isspace c); simpl; lia.
Qed.

Lemma lstrip_fixed_head (c : ascii) (s : text) :
  Str.lstrip (c :: s) = c :: s -> Str.isspace c = false.
Proof.
  simpl. destruct (Str.isspace c); [|done].
  intros E. pose proof (lstrip_length s) as L.
  rewrite E in L. simpl in L. lia.
Qed.

Lemma lstrip_head (c : ascii) (s : text) :
  Str.isspace c = false -> Str.lstrip (c :: s) = c :: s.
Proof. simpl. by intros ->. Qed.

Lemma rstrip_length (s : text) : length (Str.rstrip s) <= length s.
Proof.
  unfold Str.rstrip. rewrite length_reverse.
  pose proof (lstrip_length (reverse s)) as L. by rewrite length_reverse in L.
Qed.

(** A text that [strip] leaves alone is left alone by both halves. *)
Lemma strip_fixed (s : text) :
  Str.strip s = s -> Str.lstrip s = s /\ Str.rstrip s = s.
Proof.
  unfold Str.strip. intros E.
  assert (Str.lstrip s = s) as El.
  { destruct s as [|c s]; [done|].
    simpl in *. destruct (Str.isspace c); [|done].
    pose proof (rstrip_length (Str.lstrip s)) as L1.
    pose proof (lstrip_length s) as L2.
    rewrite E in L1. simpl in L1. lia. }
  split; [done|]. by rewrite El in E.
Qed.

Lemma lstrip_app_fixed (s r : text) (x : ascii) :
  Str.lstrip s = s -> Str.isspace x = false ->
  Str.lstrip (s ++ x :: r) = s ++ x :: r.
Proof.
  intros E Hx. destruct s as [|c s].
  - by apply lstrip_head.
  - apply lstrip_fixed_head in E. by apply (lstrip_head c (s ++ x :: r)).
Qed.

Lemma startswith_app (p s : text) : Str.startswith p (p ++ s) = true.
Proof.
  induction p as [|a p IH]; [done|].
  simpl. by rewrite Ascii.eqb_refl, IH.
Qed.

Lemma startswith_inv (p s : text) :
  Str.startswith p s = true -> exists r, s = p ++ r.
Proof.
  revert s. induction p as [|a p IH]; intros s H.
  - by exists s.
  - destruct s as [|b s]; [done|]. simpl in H.
    apply andb_true_iff in H as [Hab Hps].
    apply Ascii.eqb_eq in Hab as ->.
    destruct (IH _ Hps) as [r ->]. by exists r.
Qed.

Lemma split_once_app (sep : ascii) (k v : text) :
  sep ∉ k -> Str.split_once sep (k ++ sep :: v) = [k; v].
Proof.
  induction k as [|c k IH]; intros Hk; simpl.
  - by rewrite Ascii.eqb_refl.
  - apply not_elem_of_cons in Hk as [Hc Hk].
    destruct (Ascii.eqb c sep) eqn:E.
    + apply Ascii.eqb_eq in E. congruence.
    + by rewrite (IH Hk).
Qed.

End StrFacts.

(** ** Text files *)

Section TextIOFacts.

Import TextIO.

Lemma split_lines_wf (s cur : text) :
  LF ∉ cur -> lines_wf (split_lines cur s).
Proof.
  revert cur. induction s as [|c s IH]; intros cur Hcur; simpl.
  - destruct cur as [|a cur]; [constructor|].
    constructor.
    + intros E. apply (f_equal length) in E.
      rewrite length_reverse in E. done.
    + by rewrite elem_of_reverse.
  - destruct (Ascii.eqb c LF) eqn:E.
    + apply Ascii.eqb_eq in E as ->. rewrite reverse_cons.
      apply lines_wf_cons; [by rewrite elem_of_reverse|].
      apply IH. by apply not_elem_of_nil.
    + apply IH. apply not_elem_of_cons. split; [|done].
      intros <-. by rewrite Ascii.eqb_refl in E.
Qed.

Lemma split_lines_body (body rest cur : text) :
  LF ∉ body ->
  split_lines cur (body ++ rest) = split_lines (reverse body ++ cur) rest.
Proof.
  revert cur. induction body as [|c body IH]; intros cur Hb; [done|].
  apply not_elem_of_cons in Hb as [Hc Hb]. simpl.
  destruct (Ascii.eqb c LF) eqn:E.
  - apply Ascii.eqb_eq in E. congruence.
  - rewrite (IH _ Hb), reverse_cons. by rewrite <- app_assoc.
Qed.

(** Reading back what [writelines] wrote gives the same lines, when they
    have the shape of lines. *)
Lemma split_lines_concat (ls : list text) :
  lines_wf ls -> split_lines [] (concat ls) = ls.
Proof.
  induction 1 as [|l Hne Hl|body ls Hb Hwf IH]; simpl.
  - done.
  - rewrite app_nil_r, <- (app_nil_r l) at 1.
    rewrite split_lines_body by done. simpl. rewrite app_nil_r.
    destruct (reverse l) eqn:E.
    + apply (f_equal reverse) in E. rewrite reverse_involutive in E. done.
    + by rewrite <- E, reverse_involutive.
  - rewrite <- app_assoc. rewrite split_lines_body by done. simpl.
    rewrite app_nil_r, reverse_cons, reverse_involutive. by rewrite IH.
Qed.

Lemma split_lines_chars (P : ascii -> Prop) (s cur : text) :
  Forall P cur -> Forall P s -> Forall (Forall P) (split_lines cur s).
Proof.
  revert cur. induction s as [|c s IH]; intros cur Hcur Hs; simpl.
  - destruct cur; [constructor|].
    constructor; [|constructor]. by apply Forall_reverse.
  - apply Forall_cons in Hs as [Hc Hs].
    destruct (Ascii.eqb c LF).
    + constructor; [|by apply IH].
      apply Forall_reverse. by constructor.
    + apply IH; [by constructor|done].
Qed.

Lemma translate_newlines_no_CR (s : text) (b : bool) :
  Forall (fun c => c <> CR) (translate_newlines b s).
Proof.
  revert b. induction s as [|c s IH]; intros b; simpl; [constructor|].
  destruct (Ascii.eqb c CR) eqn:E.
  - constructor; [done|apply IH].
  - assert (c <> CR) by (intros ->; by rewrite Ascii.eqb_refl in E).
    destruct (Ascii.eqb c LF); [destruct b|]; try constructor; try done;
      apply IH.
Qed.

Lemma translate_newlines_id (s : text) :
  Forall (fun c => c <> CR) s -> translate_newlines false s = s.
Proof.
  induction 1 as [|c s Hc Hs IH]; simpl; [done|].
  destruct (Ascii.eqb c CR) eqn:E.
  - apply Ascii.eqb_eq in E. done.
  - rewrite IH. destruct (Ascii.eqb c LF) eqn:E'; [|done].
    apply Ascii.eqb_eq in E'. by rewrite E'.
Qed.

Lemma readlines_wf (raw : text) : lines_wf (readlines raw).
Proof. apply split_lines_wf, not_elem_of_nil. Qed.

Lemma readlines_no_CR (raw : text) :
  Forall (Forall (fun c => c <> CR)) (readlines raw).
Proof.
  apply split_lines_chars; [constructor|apply translate_newlines_no_CR].
Qed.

(** The round trip of the file layer: lines of the right shape and free of
    ["\r"], written and read again, come back as they were. *)
Lemma readlines_writelines (ls : list text) :
  lines_wf ls -> Forall (Forall (fun c => c <> CR)) ls ->
  readlines (writelines ls) = ls.
Proof.
  intros Hwf Hcr. unfold readlines, writelines, universal_newlines.
  rewrite translate_newlines_id; [by apply split_lines_concat|].
  by apply Forall_concat.
Qed.

End TextIOFacts.

(** ** Keys and lines of the version store *)

Section StoreFacts.

Import TextIO.

(** The three keys, as the source's tests list them. *)
Lemma _get_env_var_name_values :
  _get_env_var_name ORDER_SERVICE = txt "ORDER_SERVICE_VERSION"
  /\ _get_env_var_name INVENTORY_SERVICE = txt "INVENTORY_SERVICE_VERSION"
  /\ _get_env_var_name PAYMENT_SERVICE = txt "PAYMENT_SERVICE_VERSION".
Proof. repeat split; reflexivity. Qed.

(** What the proofs use of a key: no ["="], no line break, and a first
    character that [strip] keeps. *)
Lemma env_var_shape (service : ServiceName) :
  let key := _get_env_var_name service in
  ("="%char ∉ key) /\ (LF ∉ key)
  /\ Forall (fun c => c <> CR) key
  /\ exists c rest, key = c :: rest /\ Str.isspace c = false.
Proof.
  destruct service; (split; [|split; [|split]]);
    try (apply (bool_decide_unpack _); vm_compute; reflexivity);
    eexists _, _; (split; [reflexivity|reflexivity]).
Qed.

Lemma rstrip_drop_space (a : text) (x : ascii) :
  Str.isspace x = true -> Str.rstrip (a ++ [x]) = Str.rstrip a.
Proof.
  intros Hx. unfold Str.rstrip. rewrite reverse_app. simpl. by rewrite Hx.
Qed.

Lemma rstrip_keep (a v : text) (x : ascii) :
  Str.isspace x = false -> Str.rstrip v = v ->
  Str.rstrip (a ++ x :: v) = a ++ x :: v.
Proof.
  intros Hx Hv. unfold Str.rstrip in *.
  assert (Str.lstrip (reverse v) = reverse v) as Hl.
  { apply (f_equal reverse) in Hv. by rewrite reverse_involutive in Hv. }
  rewrite reverse_app, reverse_cons, <- app_assoc. simpl.
  rewrite lstrip_app_fixed by done.
  rewrite reverse_app, reverse_cons, !reverse_involutive.
  by rewrite <- app_assoc.
Qed.

Lemma strip_new_line (service : ServiceName) (version : text) :
  Str.strip version = version ->
  Str.strip (new_line (_get_env_var_name service) version)
  = _get_env_var_name service ++ "="%char :: version.
Proof.
  intros Hv. apply strip_fixed in Hv as [_ Hr].
  destruct (env_var_shape service) as (_ & _ & _ & c & rest & Hk & Hc).
  unfold new_line, Str.strip. rewrite Hk.
  assert ((c :: rest) ++ txt "=" ++ version ++ [LF]
          = ((c :: rest) ++ "="%char :: version) ++ [LF]) as ->
    by (by rewrite <- app_assoc).
  rewrite <- !app_comm_cons, lstrip_head by done.
  rewrite !app_comm_cons, rstrip_drop_space by done.
  by apply rstrip_keep.
Qed.

Lemma first_match_Some (key : text) (lines : list text) (start i : nat) :
  first_match key lines start = Some i ->
  exists pre l post,
    lines = pre ++ l :: post
    /\ Forall (fun x => matches key x = false) pre
    /\ matches key l = true
    /\ i = start + length pre.
Proof.
  revert start. induction lines as [|line rest IH]; intros start H; [done|].
  cbn [first_match] in H.
  change (Str.startswith _ _) with (matches key line) in H.
  destruct (matches key line) eqn:E.
  - exists [], line, rest. simplify_eq.
    split; [done|]. split; [constructor|]. split; [done|simpl; lia].
  - destruct (IH _ H) as (pre & l & post & -> & Hpre & Hl & ->).
    exists (line :: pre), l, post.
    split; [done|]. split; [by constructor|]. split; [done|simpl; lia].
Qed.

Lemma first_match_None (key : text) (lines : list text) (start : nat) :
  first_match key lines start = None ->
  Forall (fun x => matches key x = false) lines.
Proof.
  revert start. induction lines as [|line rest IH]; intros start H;
    [constructor|].
  cbn [first_match] in H.
  change (Str.startswith _ _) with (matches key line) in H.
  destruct (matches key line) eqn:E; [done|].
  constructor; [done|by eapply IH].
Qed.

(** The list written back, against the list read: the first matching line
    is replaced and the others stay, or no line matches and one line is
    added at the end. *)
Lemma update_lines_cases (key version : text) (lines : list text) :
  rewrites_only_key_line key (new_line key version)
    lines (update_lines key version lines).
Proof.
  unfold rewrites_only_key_line, update_lines.
  destruct (first_match key lines 0) as [i|] eqn:E.
  - left. apply first_match_Some in E as (pre & l & post & -> & Hpre & Hl & ->).
    exists pre, l, post. repeat split; try done.
    simpl. rewrite <- (Nat.add_0_r (length pre)). by rewrite insert_app_r.
  - right. split; [by eapply first_match_None|done].
Qed.

Lemma find_skip {A} (f : A -> bool) (pre rest : list A) :
  Forall (fun x => f x = false) pre ->
  List.find f (pre ++ rest) = List.find f rest.
Proof. induction 1 as [|x pre Hx _ IH]; simpl; [done|]. by rewrite Hx. Qed.

Lemma find_none {A} (f : A -> bool) (l : list A) :
  Forall (fun x => f x = false) l -> List.find f l = None.
Proof. induction 1 as [|x pre Hx _ IH]; simpl; [done|]. by rewrite Hx. Qed.

Lemma terminated_has_LF (l : text) : terminated l = true -> LF ∈ l.
Proof.
  unfold terminated. destruct (reverse l) as [|c r] eqn:E; [done|].
  intros Hc. apply Ascii.eqb_eq in Hc as ->.
  apply elem_of_reverse. rewrite E. by left.
Qed.

Lemma lines_wf_replace (pre post : list text) (l body : text) :
  lines_wf (pre ++ l :: post) -> LF ∉ body ->
  lines_wf (pre ++ (body ++ [LF]) :: post).
Proof.
  intros Hwf Hb. induction pre as [|p pre IH]; simpl in *.
  - apply lines_wf_cons; [done|].
    inversion Hwf; subst; [constructor|done].
  - inversion Hwf as [|l' Hne Hl' Heq|body' ls Hb' Hls Heq]; subst.
    + by destruct pre.
    + apply lines_wf_cons; [done|by apply IH].
Qed.

Lemma lines_wf_append (lines : list text) (body : text) :
  lines_wf lines -> newline_terminated lines = true -> LF ∉ body ->
  lines_wf (lines ++ [body ++ [LF]]).
Proof.
  intros Hwf Ht Hb. induction Hwf as [|l Hne Hl|body' ls Hb' Hls IH]; simpl.
  - apply lines_wf_cons; [done|constructor].
  - simpl in Ht. apply andb_true_iff in Ht as [Ht _].
    by apply terminated_has_LF in Ht.
  - simpl in Ht. apply andb_true_iff in Ht as [_ Ht].
    apply lines_wf_cons; [done|by apply IH].
Qed.

End StoreFacts.

(** ** The version store accessor *)

Section AccessorFacts.

Import TextIO.

(** The loop of [get_current_version] is a search for the first matching
    line; it neither raises nor changes the host. *)
Lemma scan_lines_find (service : ServiceName) (lines : list text) (s : Sys) :
  let key := _get_env_var_name service in
  scan_lines key lines s =
  (Ok (match List.find (matches key) lines with
       | Some line => Some (Str.strip (drop (length key + 1) (Str.strip line)))
       | None => None
       end), s).
Proof.
  intros key. destruct (env_var_shape service) as (Heq & _).
  fold key in Heq.
  induction lines as [|line rest IH]; [done|].
  cbn [scan_lines List.find].
  change (Str.startswith _ _) with (matches key line).
  destruct (matches key line) eqn:E; [|done].
  apply startswith_inv in E as [r Hr]. rewrite Hr.
  replace ((key ++ txt "=") ++ r) with (key ++ "="%char :: r)
    by (by rewrite <- app_assoc).
  rewrite split_once_app by done. simpl lookup.
  replace (length key + 1) with (length (key ++ ["="%char]))
    by (rewrite length_app; simpl; lia).
  replace (key ++ "="%char :: r) with ((key ++ ["="%char]) ++ r)
    by (by rewrite <- app_assoc).
  by rewrite drop_app_length.
Qed.

Lemma get_current_version_run (self : RollbackExecutor)
  (service : ServiceName) (s : Sys) :
  get_current_version self service s =
  (Ok (readVersion_spec (files s !! env_file self) service), s).
Proof.
  unfold get_current_version, try_except, bind, open_read, readVersion_spec.
  destruct (files s !! env_file self) as [[data w| |data after|msg]|];
    try done; by rewrite scan_lines_find.
Qed.

Lemma update_service_version_run (self : RollbackExecutor)
  (service : ServiceName) (version : text) (s : Sys) :
  update_service_version self service version s =
  match files s !! env_file self with
  | Some (Regular data true) =>
      (Ok true,
       {| files :=
            <[env_file self :=
                Regular (writelines
                           (update_lines (_get_env_var_name service) version
                              (readlines data))) true]> (files s);
          commands := commands s;
          ticks := ticks s |})
  | Some (Fragile data after) =>
      (Ok false,
       {| files := <[env_file self := after]> (files s);
          commands := commands s;
          ticks := ticks s |})
  | _ => (Ok false, s)
  end.
Proof.
  unfold update_service_version, try_except, bind, open_read, open_write, ret.
  destruct (files s !! env_file self) as [[data [|]| |data after|msg]|] eqn:E; simpl;
    rewrite ?E; done.
Qed.

Lemma update_service_version_at (self : RollbackExecutor)
  (service : ServiceName) (version : text) (s : Sys)
  (cmds : list (list text)) (tk : nat) :
  update_service_version self service version
    {| files := files s; commands := cmds; ticks := tk |}
  = (fst (update_service_version self service version s),
     {| files := files (snd (update_service_version self service version s));
        commands := cmds;
        ticks := tk |}).
Proof.
  rewrite !update_service_version_run. cbn [files commands ticks].
  by destruct (files s !! env_file self) as [[data [|]| |data after|msg]|].
Qed.

(** [update_service_version] never raises. *)
Lemma update_service_version_ok (self : RollbackExecutor)
  (service : ServiceName) (version : text) (s : Sys) :
  exists updated,
    fst (update_service_version self service version s) = Ok updated.
Proof.
  rewrite update_service_version_run.
  destruct (files s !! env_file self) as [[data [|]| |data after|msg]|];
    by eexists.
Qed.

Lemma not_elem_Forall_ne (x : ascii) (l : text) :
  x ∉ l -> Forall (fun c => c <> x) l.
Proof. intros H. apply Forall_forall. intros c Hc ->. done. Qed.

Lemma new_line_body (key version : text) :
  new_line key version = (key ++ "="%char :: version) ++ [LF].
Proof. unfold new_line. by rewrite <- app_assoc. Qed.

Lemma has_key_not_all_miss (service : ServiceName) (lines : list text) :
  has_key service lines = true ->
  Forall (fun x => matches (_get_env_var_name service) x = false) lines ->
  False.
Proof.
  unfold has_key. intros H Hall.
  apply existsb_exists in H as (x & Hin & Hx).
  apply list_elem_of_In in Hin.
  rewrite Forall_forall in Hall. specialize (Hall x Hin). congruence.
Qed.

(** What was written is read again line for line, when the label has no
    line break and the new line does not land behind an unterminated one. *)
Lemma update_lines_reread (service : ServiceName) (version : text)
  (lines : list text) :
  let key := _get_env_var_name service in
  LF ∉ version -> CR ∉ version ->
  lines_wf lines -> Forall (Forall (fun c => c <> CR)) lines ->
  has_key service lines = true \/ newline_terminated lines = true ->
  readlines (writelines (update_lines key version lines))
  = update_lines key version lines.
Proof.
  intros key Hlf Hcr Hwf Hno Hcond.
  destruct (env_var_shape service) as (Heq & Hklf & Hkcr & _).
  fold key in Heq, Hklf, Hkcr.
  assert (LF ∉ key ++ "="%char :: version) as Hbody.
  { rewrite elem_of_app, elem_of_cons. intros [?|[?|?]]; done. }
  assert (Forall (fun c => c <> CR) (new_line key version)) as Hnew.
  { unfold new_line. apply Forall_app; split; [done|].
    apply Forall_app; split; [by repeat constructor|].
    apply Forall_app; split; [by apply not_elem_Forall_ne|].
    by repeat constructor. }
  apply readlines_writelines.
  - destruct (update_lines_cases key version lines)
      as [(pre & l & post & -> & _ & _ & ->)|[Hall ->]].
    + rewrite new_line_body. by eapply lines_wf_replace.
    + rewrite new_line_body. apply lines_wf_append; try done.
      destruct Hcond as [Hk|Ht]; [|done].
      by destruct (has_key_not_all_miss service lines).
  - destruct (update_lines_cases key version lines)
      as [(pre & l & post & -> & _ & _ & ->)|[Hall ->]].
    + apply Forall_app in Hno as [Hpre Hpost].
      apply Forall_cons in Hpost as [_ Hpost].
      apply Forall_app. split; [done|]. by constructor.
    + apply Forall_app. split; [done|]. by repeat constructor.
Qed.

Lemma matches_new_line (service : ServiceName) (version : text) :
  Str.strip version = version ->
  matches (_get_env_var_name service)
    (new_line (_get_env_var_name service) version) = true.
Proof.
  intros Hv. unfold matches. rewrite strip_new_line by done.
  replace (_get_env_var_name service ++ "="%char :: version)
    with ((_get_env_var_name service ++ txt "=") ++ version)
    by (by rewrite <- app_assoc).
  apply startswith_app.
Qed.

(** The first matching line of the list written back is the new one. *)
Lemma find_update_lines (service : ServiceName) (version : text)
  (lines : list text) :
  let key := _get_env_var_name service in
  Str.strip version = version ->
  List.find (matches key) (update_lines key version lines)
  = Some (new_line key version).
Proof.
  intros key Hv.
  pose proof (matches_new_line service version Hv) as Hm. fold key in Hm.
  destruct (update_lines_cases key version lines)
    as [(pre & l & post & -> & Hpre & _ & ->)|[Hall ->]].
  - rewrite find_skip by done. simpl. by rewrite Hm.
  - rewrite find_skip by done. simpl. by rewrite Hm.
Qed.

(** The value carried by the new line is the label. *)
Lemma value_of_new_line (service : ServiceName) (version : text) :
  let key := _get_env_var_name service in
  Str.strip version = version ->
  Str.strip (drop (length key + 1) (Str.strip (new_line key version)))
  = version.
Proof.
  intros key Hv. unfold key. rewrite strip_new_line by done.
  replace (length (_get_env_var_name service) + 1)
    with (length (_get_env_var_name service ++ ["="%char]))
    by (rewrite length_app; simpl; lia).
  replace (_get_env_var_name service ++ "="%char :: version)
    with ((_get_env_var_name service ++ ["="%char]) ++ version)
    by (by rewrite <- app_assoc).
  by rewrite drop_app_length.
Qed.

(** Write, then read: the common ground of the round trip and of the state
    of the store after a rollback. *)
Lemma round_trip_run (self : RollbackExecutor) (service : ServiceName)
  (version : text) (s : Sys) :
  fst (update_service_version self service version s) = Ok true ->
  clean_version version ->
  has_key service (store_lines self s) = true
  \/ newline_terminated (store_lines self s) = true ->
  fst (get_current_version self service
         (snd (update_service_version self service version s)))
  = Ok (Some version).
Proof.
  intros Hok (Hstrip & Hlf & Hcr) Hcond.
  rewrite update_service_version_run in *. unfold store_lines in Hcond.
  destruct (files s !! env_file self) as [[data [|]| |data after|msg]|] eqn:E; try done.
  rewrite get_current_version_run. simpl.
  rewrite lookup_insert_eq. unfold readVersion_spec.
  rewrite update_lines_reread;
    [|done|done|apply readlines_wf|apply readlines_no_CR|done].
  rewrite find_update_lines by done.
  by rewrite value_of_new_line.
Qed.

(** The frame of a successful write, on the lines of the file before and
    after it, for a label without line break that does not land behind an
    unterminated line. *)
Lemma update_service_version_frame (self : RollbackExecutor)
  (service : ServiceName) (version : text) (s : Sys) :
  let key := _get_env_var_name service in
  let s' := snd (update_service_version self service version s) in
  fst (update_service_version self service version s) = Ok true ->
  LF ∉ version -> CR ∉ version ->
  has_key service (store_lines self s) = true
  \/ newline_terminated (store_lines self s) = true ->
  rewrites_only_key_line key (new_line key version)
    (store_lines self s) (store_lines self s').
Proof.
  intros key s' Hok Hlf Hcr Hcond. unfold s'. clear s'.
  rewrite update_service_version_run in *. unfold store_lines in *.
  destruct (files s !! env_file self) as [[data [|]| |data after|msg]|] eqn:E; try done.
  simpl. rewrite lookup_insert_eq.
  rewrite update_lines_reread;
    [|done|done|apply readlines_wf|apply readlines_no_CR|done].
  apply update_lines_cases.
Qed.

(** C8. [get_current_version] never raises and leaves the host as it is. It
    returns the trimmed value of the first line of the version file whose
    trimmed text starts with the derived key followed by ["="], and [None]
    when the file does not exist, cannot be read, or has no such line:
    it computes [readVersion_spec]. *)
Theorem get_current_version_first_match (self : RollbackExecutor)
  (service : ServiceName) (s : Sys) :
  get_current_version self service s
  = (Ok (readVersion_spec (files s !! env_file self) service), s).
Proof. apply get_current_version_run. Qed.

(** The match is on the key immediately followed by ["="]: a line with
    blanks around the sign, as in the unit test
    [test_get_current_version_with_whitespace], is not a line of the key. *)
Lemma get_current_version_blank_before_equals :
  fst (get_current_version default_executor ORDER_SERVICE
         (host_with (txt "ORDER_SERVICE_VERSION = v1.0  " ++ [LF])))
  = Ok None.
Proof. vm_compute. reflexivity. Qed.

(** C5, on an input where it fails: the label [" v2.3"] is written for a
    pinned service and the read gives ["v2.3"], without the leading
    blank. *)
Lemma round_trip_untrimmed_label :
  let s := host_with (txt "ORDER_SERVICE_VERSION=v1.0" ++ [LF]) in
  let s' := snd (update_service_version default_executor ORDER_SERVICE
                   (txt " v2.3") s) in
  fst (update_service_version default_executor ORDER_SERVICE (txt " v2.3") s)
  = Ok true
  /\ fst (get_current_version default_executor ORDER_SERVICE s')
     = Ok (Some (txt "v2.3"))
  /\ fst (get_current_version default_executor ORDER_SERVICE s')
     <> Ok (Some (txt " v2.3")).
Proof. vm_compute. repeat split; discriminate. Qed.

(** C5, amended. When [update_service_version] succeeds for a label with
    no white space at either end and no line break, and the service is
    already pinned in the file or every line of the file is terminated,
    [get_current_version] for the same service then returns that label. *)
Theorem update_then_get_round_trip (self : RollbackExecutor)
  (service : ServiceName) (version : text) (s : Sys) :
  fst (update_service_version self service version s) = Ok true ->
  clean_version version ->
  has_key service (store_lines self s) = true
  \/ newline_terminated (store_lines self s) = true ->
  fst (get_current_version self service
         (snd (update_service_version self service version s)))
  = Ok (Some version).
Proof. apply round_trip_run. Qed.

(** The append case on a terminated file: the payment service is not pinned
    in a file that pins the order service. *)
Lemma update_then_get_round_trip_witness :
  fst (get_current_version default_executor PAYMENT_SERVICE
         (snd (update_service_version default_executor PAYMENT_SERVICE
                 (txt "v2.3")
                 (host_with (txt "ORDER_SERVICE_VERSION=v1.0" ++ [LF])))))
  = Ok (Some (txt "v2.3")).
Proof.
  apply update_then_get_round_trip.
  - vm_compute. reflexivity.
  - split; [vm_compute; reflexivity|].
    split; apply (bool_decide_unpack _); vm_compute; reflexivity.
  - right. vm_compute. reflexivity.
Defined.

(** C10, on an input where the code breaks it: the version file is
    ["FOO=bar"] without final line break and the service is not pinned. The
    write succeeds, but the file then holds the single line
    ["FOO=barORDER_SERVICE_VERSION=v1.0"]: the old line is not preserved and
    no line is added, so the frame fails whatever the new line is taken to
    be, and the service is still not pinned. *)
Theorem update_service_version_append_to_unterminated :
  let s := host_with (txt "FOO=bar") in
  let s' := snd (update_service_version default_executor ORDER_SERVICE
                   (txt "v1.0") s) in
  fst (update_service_version default_executor ORDER_SERVICE (txt "v1.0") s)
  = Ok true
  /\ store_lines default_executor s = [txt "FOO=bar"]
  /\ store_lines default_executor s'
     = [txt "FOO=barORDER_SERVICE_VERSION=v1.0" ++ [LF]]
  /\ (forall new,
         ~ rewrites_only_key_line (_get_env_var_name ORDER_SERVICE) new
             (store_lines default_executor s)
             (store_lines default_executor s'))
  /\ fst (get_current_version default_executor ORDER_SERVICE s') = Ok None.
Proof.
  cbv zeta.
  assert (store_lines default_executor (host_with (txt "FOO=bar"))
          = [txt "FOO=bar"]) as Hs by (vm_compute; reflexivity).
  assert (store_lines default_executor
            (snd (update_service_version default_executor ORDER_SERVICE
                    (txt "v1.0") (host_with (txt "FOO=bar"))))
          = [txt "FOO=barORDER_SERVICE_VERSION=v1.0" ++ [LF]]) as Hs'
    by (vm_compute; reflexivity).
  split; [vm_compute; reflexivity|]. split; [exact Hs|]. split; [exact Hs'|].
  split; [|vm_compute; reflexivity].
  intros new. rewrite Hs, Hs'.
  intros [(pre & l & post & Hb & _ & Hl & _)|[_ Ha]].
  - destruct pre as [|p pre]; simpl in Hb.
    + injection Hb as <- <-. vm_compute in Hl. discriminate.
    + injection Hb as _ Hb. by destruct pre.
  - discriminate.
Qed.

End AccessorFacts.

(** ** The process launcher *)

Section LauncherFacts.

(** [restart_service], with the monad worked out: the result and the host
    for each way the two commands can end. *)
Lemma restart_service_run (rt : Runtime) (self : RollbackExecutor)
  (service : ServiceName) (s : Sys) :
  restart_service rt self service s =
  match run_outcome rt probe_command with
  | Exited rcp _ _ =>
      let cmd :=
        restart_command self service
          (if (rcp =? 0)%Z then compose_v2 else compose_v1) in
      (Ok (match run_outcome rt cmd with
           | Exited rc out err => if (rc =? 0)%Z then (true, out) else (false, err)
           | TimedOut _ => (false, timeout_message rt service)
           | LaunchFailed msg => (false, error_message rt service msg)
           end),
       {| files := files s;
          commands := (commands s ++ [probe_command]) ++ [cmd];
          ticks := ticks s |})
  | TimedOut _ =>
      (Ok (false, timeout_message rt service),
       {| files := files s;
          commands := commands s ++ [probe_command];
          ticks := ticks s |})
  | LaunchFailed msg =>
      (Ok (false, error_message rt service msg),
       {| files := files s;
          commands := commands s ++ [probe_command];
          ticks := ticks s |})
  end.
Proof.
  unfold restart_service, try_except, bind, subprocess_run.
  fold probe_command.
  destruct (run_outcome rt probe_command) as [rcp outp errp|m|m]; try done.
  cbn [returncode stdout stderr].
  destruct (rcp =? 0)%Z; cbn [negb];
    match goal with
    | |- context [run_outcome rt ?c] =>
        destruct (run_outcome rt c) as [rc out err|m|m]
    end; try done; cbn [returncode stdout stderr]; by destruct (rc =? 0)%Z.
Qed.

(** The result of [restart_service] does not depend on the host, and the
    call leaves files and clock as they are. *)
Lemma restart_service_frame (rt : Runtime) (self : RollbackExecutor)
  (service : ServiceName) (s : Sys) :
  exists r cmds,
    restart_service rt self service s
    = (Ok r, {| files := files s; commands := cmds; ticks := ticks s |})
    /\ forall s0, fst (restart_service rt self service s0) = Ok r.
Proof.
  rewrite restart_service_run.
  destruct (run_outcome rt probe_command) as [rcp outp errp|m|m] eqn:E;
    eexists _, _; (split; [reflexivity|]); intros s0;
    rewrite restart_service_run, E; reflexivity.
Qed.

(** C6. [restart_service] never raises: it returns a pair whatever the two
    commands do. Exit status 0 of the restart command gives [(true, stdout)],
    another exit status [(false, stderr)], a timeout [(false, "Timeout while
    restarting ...")] and any other exception [(false, "Error restarting
    ...: ...")], whether the probe or the restart command raised it. *)
Theorem restart_service_never_raises (rt : Runtime) (self : RollbackExecutor)
  (service : ServiceName) (s : Sys) :
  exists success message,
    fst (restart_service rt self service s) = Ok (success, message)
    /\ match run_outcome rt probe_command with
       | Exited rcp _ _ =>
           match run_outcome rt
                   (restart_command self service
                      (if (rcp =? 0)%Z then compose_v2 else compose_v1)) with
           | Exited rc out err =>
               if (rc =? 0)%Z then success = true /\ message = out
               else success = false /\ message = err
           | TimedOut _ =>
               success = false /\ message = timeout_message rt service
           | LaunchFailed msg =>
               success = false /\ message = error_message rt service msg
           end
       | TimedOut _ =>
           success = false /\ message = timeout_message rt service
       | LaunchFailed msg =>
           success = false /\ message = error_message rt service msg
       end.
Proof.
  rewrite restart_service_run.
  destruct (run_outcome rt probe_command) as [rcp outp errp|m|m].
  - simpl.
    destruct (run_outcome rt _) as [rc out err|m|m];
      [destruct (rc =? 0)%Z|..]; by eexists _, _.
  - by eexists _, _.
  - by eexists _, _.
Qed.

(** C4, on an input where it fails: the probe times out. A restart through
    [docker-compose] would succeed, but no such command is run, only the
    probe, and the restart attempt fails with the timeout text. *)
Lemma restart_service_probe_timeout_no_fallback :
  let rt := runtime_of probe_times_out in
  let r := restart_service rt default_executor ORDER_SERVICE (host_with []) in
  run_outcome rt probe_command
  = TimedOut (txt "Command '['docker', 'compose', 'version']' timed out after 5 seconds")
  /\ run_outcome rt (restart_command default_executor ORDER_SERVICE compose_v1)
     = Exited 0 (txt "Container order-service  Started") []
  /\ fst r = Ok (false, txt "Timeout while restarting order-service")
  /\ commands (snd r) = [probe_command]
  /\ restart_command default_executor ORDER_SERVICE compose_v1 ∉ commands (snd r).
Proof.
  vm_compute. repeat split.
  intros H. apply list_elem_of_singleton in H. discriminate.
Qed.

(** C4, amended. When the probe exits with a non-zero status,
    [restart_service] runs the restart through [docker-compose], and that
    command decides the result. When the probe times out, no restart command
    is run and the call returns [(false, "Timeout while restarting ...")]. *)
Theorem restart_service_fallback (rt : Runtime) (self : RollbackExecutor)
  (service : ServiceName) (s : Sys) :
  (forall rc out err,
      run_outcome rt probe_command = Exited rc out err -> rc <> 0%Z ->
      commands (snd (restart_service rt self service s))
      = commands s
        ++ [probe_command; restart_command self service compose_v1]
      /\ fst (restart_service rt self service s)
         = Ok (match run_outcome rt (restart_command self service compose_v1) with
               | Exited rc' out' err' =>
                   if (rc' =? 0)%Z then (true, out') else (false, err')
               | TimedOut _ => (false, timeout_message rt service)
               | LaunchFailed msg => (false, error_message rt service msg)
               end))
  /\ (forall msg,
         run_outcome rt probe_command = TimedOut msg ->
         commands (snd (restart_service rt self service s))
         = commands s ++ [probe_command]
         /\ fst (restart_service rt self service s)
            = Ok (false, timeout_message rt service)).
Proof.
  split.
  - intros rc out err E Hrc. rewrite restart_service_run, E.
    apply Z.eqb_neq in Hrc. rewrite Hrc. simpl.
    by rewrite <- app_assoc.
  - intros msg E. by rewrite restart_service_run, E.
Qed.

(** Both halves on the default executor: a probe that exits with status 1,
    and a probe that times out. *)
Lemma restart_service_fallback_witness :
  commands (snd (restart_service (runtime_of probe_exits_nonzero)
                   default_executor ORDER_SERVICE (host_with [])))
  = [probe_command; restart_command default_executor ORDER_SERVICE compose_v1]
  /\ fst (restart_service (runtime_of probe_exits_nonzero)
            default_executor ORDER_SERVICE (host_with []))
     = Ok (true, txt "Container order-service  Started")
  /\ fst (restart_service (runtime_of probe_times_out)
            default_executor ORDER_SERVICE (host_with []))
     = Ok (false, txt "Timeout while restarting order-service").
Proof.
  split; [|split].
  - apply (proj1 (restart_service_fallback (runtime_of probe_exits_nonzero)
                    default_executor ORDER_SERVICE (host_with []))
             1%Z [] (txt "docker: 'compose' is not a docker command."));
      [reflexivity|lia].
  - apply (proj1 (restart_service_fallback (runtime_of probe_exits_nonzero)
                    default_executor ORDER_SERVICE (host_with []))
             1%Z [] (txt "docker: 'compose' is not a docker command."));
      [reflexivity|lia].
  - apply (proj2 (restart_service_fallback (runtime_of probe_times_out)
                    default_executor ORDER_SERVICE (host_with []))
             (txt "Command '['docker', 'compose', 'version']' timed out after 5 seconds")).
    reflexivity.
Defined.

End LauncherFacts.

(** ** The rollback executor *)

Section ExecutorFacts.

(** The checks of [validate_environment], in order: the version file, the
    compose file, [docker info]. A [stat] that fails ends the call with its
    exception; the Docker check never does. *)
Lemma validate_environment_cases (rt : Runtime) (self : RollbackExecutor)
  (s : Sys) :
  fst (validate_environment rt self s) =
  match stat s (env_file self) with
  | Raise e => Raise e
  | Ok false =>
      Ok (false, txt "Environment file not found: " ++ env_file self)
  | Ok true =>
      match stat s (compose_file self) with
      | Raise e => Raise e
      | Ok false =>
          Ok (false, txt "Docker Compose file not found: " ++ compose_file self)
      | Ok true => Ok (docker_check rt)
      end
  end.
Proof.
  unfold validate_environment, bind, path_exists, try_except,
    subprocess_run, ret, docker_check, docker_info.
  destruct (stat s (env_file self)) as [[|]|e]; cbn [negb fst]; try done.
  destruct (stat s (compose_file self)) as [[|]|e]; cbn [negb fst]; try done.
  destruct (run_outcome rt [txt "docker"; txt "info"]) as [rc out err|m|m];
    cbn [returncode stderr]; [by destruct (rc =? 0)%Z|done..].
Qed.

(** [validate_environment] on a host that differs from [s] in commands and
    clock only: the result is that on [s], files and clock stay as they
    are, and the commands of the validation are added at the end. *)
Lemma validate_environment_at (rt : Runtime) (self : RollbackExecutor)
  (s : Sys) (cmds : list (list text)) (tk : nat) :
  validate_environment rt self
    {| files := files s; commands := cmds; ticks := tk |}
  = (fst (validate_environment rt self s),
     {| files := files s;
        commands := cmds ++ validation_commands self s;
        ticks := tk |}).
Proof.
  unfold validation_commands, validate_environment, bind, path_exists,
    try_except, subprocess_run, ret, docker_info.
  change (stat {| files := files s; commands := cmds; ticks := tk |})
    with (stat s).
  destruct (stat s (env_file self)) as [[|]|e];
    cbn [files commands ticks negb fst]; try (by rewrite app_nil_r).
  change (stat {| files := files s; commands := cmds; ticks := tk |})
    with (stat s).
  destruct (stat s (compose_file self)) as [[|]|e];
    cbn [files commands ticks negb fst]; try (by rewrite app_nil_r).
  destruct (run_outcome rt [txt "docker"; txt "info"]) as [rc out err|m|m];
    cbn [files commands ticks returncode stderr fst];
    [by destruct (rc =? 0)%Z|done..].
Qed.

(** The exception of [validate_environment] is that of the failing
    [stat], and there is no other. *)
Lemma validate_environment_error (rt : Runtime) (self : RollbackExecutor)
  (s : Sys) :
  match fst (validate_environment rt self s) with
  | Ok _ => validation_error self s = None
  | Raise e => validation_error self s = Some e
  end.
Proof.
  rewrite validate_environment_cases. unfold validation_error.
  destruct (stat s (env_file self)) as [[|]|e]; try done.
  by destruct (stat s (compose_file self)) as [[|]|e].
Qed.

Lemma restart_service_result (rt : Runtime) (self : RollbackExecutor)
  (service : ServiceName) :
  exists r, forall s,
    exists cmds,
      restart_service rt self service s
      = (Ok r, {| files := files s; commands := cmds; ticks := ticks s |}).
Proof.
  destruct (restart_service_frame rt self service (host_with []))
    as (r & _ & _ & Hr).
  exists r. intros s.
  destruct (restart_service_frame rt self service s) as (r' & cmds & E & _).
  specialize (Hr s). rewrite E in Hr. simpl in Hr. simplify_eq.
  by exists cmds.
Qed.

(** [execute_rollback], with the monad worked out. The results of the
    three steps are those the steps give on the host at the start of the
    call: clock readings and earlier commands do not change them. An
    exception of the validation ends the call before anything is assigned
    to the executor. *)
Lemma execute_rollback_run (rt : Runtime) (self : RollbackExecutor)
  (request : RollbackRequest.t) (s : Sys) :
  let service := RollbackRequest.service request in
  let target_version := RollbackRequest.target_version request in
  let previous_version := readVersion_spec (files s !! env_file self) service in
  let files' :=
    files (snd (update_service_version self service target_version s)) in
  exists valid restarted,
    fst (validate_environment rt self s) = valid
    /\ fst (restart_service rt self service s) = Ok restarted
    /\ exists cmds, execute_rollback rt self request s =
       match valid with
       | Raise e =>
           (Raise e,
            {| files := files s; commands := cmds; ticks := 2 + ticks s |})
       | Ok (false, error_msg) =>
           let response :=
             response_on rt request s ROLLBACK_FAILED
               (txt "Rollback validation failed: " ++ error_msg)
               None (Some error_msg) in
           (Ok (response, set_last_rollback self response),
            {| files := files s; commands := cmds; ticks := 3 + ticks s |})
       | Ok (true, _) =>
           match fst (update_service_version self service target_version s) with
           | Ok true =>
               match restarted with
               | (false, output) =>
                   let response :=
                     response_on rt request s ROLLBACK_FAILED
                       (txt "Rollback failed during service restart: " ++ output)
                       previous_version
                       (Some (txt "Failed to restart service: " ++ output)) in
                   (Ok (response, set_last_rollback self response),
                    {| files := files'; commands := cmds;
                       ticks := 3 + ticks s |})
               | (true, _) =>
                   let response :=
                     response_on rt request s ROLLBACK_COMPLETED
                       (txt "Successfully rolled back " ++ service_value service
                        ++ txt " from " ++ or_unknown previous_version
                        ++ txt " to " ++ target_version
                        ++ txt " in "
                        ++ format_seconds rt (clock rt (S (ticks s)))
                             (clock rt (S (S (ticks s))))
                        ++ txt " seconds")
                       previous_version None in
                   (Ok (response,
                        count_rollback (set_last_rollback self response)),
                    {| files := files'; commands := cmds;
                       ticks := 3 + ticks s |})
               end
           | _ =>
               let response :=
                 response_on rt request s ROLLBACK_FAILED
                   (txt "Rollback failed: " ++ txt "Failed to update .env file")
                   previous_version
                   (Some (txt "Failed to update .env file")) in
               (Ok (response, set_last_rollback self response),
                {| files := files'; commands := cmds; ticks := 3 + ticks s |})
           end
       end.
Proof.
  intros service target_version previous_version files'.
  destruct (restart_service_result rt self service) as [restarted Hr].
  exists (fst (validate_environment rt self s)), restarted.
  split; [done|].
  split; [by destruct (Hr s) as [c0 ->]|].
  unfold execute_rollback, response_on. fold service target_version.
  unfold bind at 1. unfold utcnow at 1.
  unfold bind at 1. unfold utcnow at 1. cbn [files commands ticks].
  unfold bind at 1. rewrite validate_environment_at.
  destruct (fst (validate_environment rt self s)) as [[[|] error_msg]|e];
    cbn [negb]; [|eexists; reflexivity..].
  unfold bind at 1. rewrite get_current_version_run.
  cbn [files]. fold previous_version.
  unfold bind at 1. rewrite update_service_version_at. fold files'.
  destruct (update_service_version_ok self service target_version s)
    as [[|] ->]; cbn [negb]; [|eexists; reflexivity].
  unfold bind at 1.
  match goal with
  | |- context [restart_service rt self service ?s1] =>
      pose proof (Hr s1) as [c2 E2]; rewrite E2
  end.
  cbn [files ticks].
  destruct restarted as [[|] output]; cbn [negb]; exists c2; reflexivity.
Qed.

(** What a call of [execute_rollback] does. When it returns, the record
    has a completion time and is stored as the last one, and the counter
    moves by one exactly when the status is [ROLLBACK_COMPLETED]. It
    returns unless the validation raises, and then it raises the same. *)
Lemma execute_rollback_summary (rt : Runtime) (self : RollbackExecutor)
  (request : RollbackRequest.t) (s : Sys) :
  match execute_rollback rt self request s with
  | (Ok (response, self'), _) =>
      is_Some (RollbackResponse.completed_at response)
      /\ last_rollback self' = Some response
      /\ compose_file self' = compose_file self
      /\ env_file self' = env_file self
      /\ ((RollbackResponse.status response = ROLLBACK_COMPLETED
           /\ total_rollbacks self' = (total_rollbacks self + 1)%Z)
          \/ (RollbackResponse.status response = ROLLBACK_FAILED
              /\ total_rollbacks self' = total_rollbacks self))
  | (Raise e, _) => fst (validate_environment rt self s) = Raise e
  end.
Proof.
  destruct (execute_rollback_run rt self request s)
    as ([[[|] msg]|e] & [[|] output] & Hv & _ & cmds & E); rewrite E; clear E;
    cbv zeta;
    try (destruct (fst (update_service_version _ _ _ _)) as [[|]|?]);
    cbn; eauto 10.
Qed.

(** On a host whose [stat] is denied on the version file, the call raises
    the [OSError] of the validation: no record is built. *)
Lemma execute_rollback_stat_denied :
  fst (execute_rollback (runtime_of all_succeed) default_executor
         (request_for ORDER_SERVICE (txt "v1.0")) host_stat_denied)
  = Raise (Exception (txt "[Errno 13] Permission denied: '/app/infra/.env'")).
Proof. vm_compute. reflexivity. Qed.

Lemma run_rollbacks_total (calls : list (Runtime * RollbackRequest.t))
  (self : RollbackExecutor) (s : Sys) :
  let '(outcomes, self', _) := run_rollbacks self calls s in
  length outcomes = length calls
  /\ count_status ROLLBACK_COMPLETED (returned outcomes)
     + count_status ROLLBACK_FAILED (returned outcomes)
     = length (returned outcomes)
  /\ total_rollbacks self'
     = (total_rollbacks self
        + Z.of_nat (count_status ROLLBACK_COMPLETED (returned outcomes)))%Z
  /\ last_rollback self'
     = match last (returned outcomes) with
       | Some r => Some r
       | None => last_rollback self
       end
  /\ compose_file self' = compose_file self
  /\ env_file self' = env_file self.
Proof.
  revert self s. induction calls as [|[rt request] calls IH]; intros self s.
  - cbn. repeat split. lia.
  - cbn [run_rollbacks].
    pose proof (execute_rollback_summary rt self request s) as Hs.
    destruct (execute_rollback rt self request s)
      as [[[response self1]|e] s1].
    + destruct Hs as (_ & Hlast & Hc & He & Hst).
      specialize (IH self1 s1).
      destruct (run_rollbacks self1 calls s1) as [[outcomes self2] s2].
      destruct IH as (Hlen & Hcnt & Htot & Hlast2 & Hc2 & He2).
      cbn [length returned count_status].
      split; [by rewrite Hlen|].
      rewrite last_cons, Hlast2, Hlast, Hc2, He2, Hc, He, Htot.
      split; [|split; [|split; [by destruct (last (returned outcomes))|done]]];
        destruct Hst as [[-> Ht]|[-> Ht]]; cbn [status_eqb]; lia.
    + specialize (IH self s1).
      destruct (run_rollbacks self calls s1) as [[outcomes self2] s2].
      destruct IH as (Hlen & Hcnt & Htot & Hlast2 & Hc2 & He2).
      cbn [length returned].
      split; [by rewrite Hlen|]. done.
Qed.

(** C7. The record that a call of [execute_rollback] returns has the
    status [ROLLBACK_COMPLETED] or [ROLLBACK_FAILED], never
    [ROLLBACK_INITIATED] or [ROLLBACK_IN_PROGRESS]. A call that does not
    return a record raises the exception of a failing [stat] in the
    validation, and nothing else. *)
Theorem execute_rollback_status_terminal (rt : Runtime)
  (self : RollbackExecutor) (request : RollbackRequest.t) (s : Sys) :
  match execute_rollback rt self request s with
  | (Ok (response, _), _) =>
      (RollbackResponse.status response = ROLLBACK_COMPLETED
       \/ RollbackResponse.status response = ROLLBACK_FAILED)
      /\ RollbackResponse.status response <> ROLLBACK_INITIATED
      /\ RollbackResponse.status response <> ROLLBACK_IN_PROGRESS
  | (Raise e, _) =>
      fst (validate_environment rt self s) = Raise e
      /\ validation_error self s = Some e
  end.
Proof.
  pose proof (execute_rollback_summary rt self request s) as Hs.
  pose proof (validate_environment_error rt self s) as He.
  destruct (execute_rollback rt self request s) as [[[response self']|e] s'].
  - destruct Hs as (_ & _ & _ & _ & [[-> _]|[-> _]]);
      repeat split; auto; discriminate.
  - rewrite Hs in He. done.
Qed.

(** C9. Every record that [execute_rollback] returns, on the completed
    path and on each failed path, has a [completed_at] that is not [None].
    A call that does not return a record raises the exception of a failing
    [stat] in the validation, and nothing else. *)
Theorem execute_rollback_completed_at (rt : Runtime)
  (self : RollbackExecutor) (request : RollbackRequest.t) (s : Sys) :
  match execute_rollback rt self request s with
  | (Ok (response, _), _) => RollbackResponse.completed_at response <> None
  | (Raise e, _) =>
      fst (validate_environment rt self s) = Raise e
      /\ validation_error self s = Some e
  end.
Proof.
  pose proof (execute_rollback_summary rt self request s) as Hs.
  pose proof (validate_environment_error rt self s) as He.
  destruct (execute_rollback rt self request s) as [[[response self']|e] s'].
  - destruct Hs as ([t Ht] & _). by rewrite Ht.
  - rewrite Hs in He. done.
Qed.

(** C3. A call of [execute_rollback] that returns adds one to
    [total_rollbacks] when its record is [ROLLBACK_COMPLETED] and nothing
    when it is [ROLLBACK_FAILED]; a call that does not return raises the
    exception of the validation, before anything is assigned to the
    executor. After any sequence of calls on a new executor, of which [N]
    returned [ROLLBACK_COMPLETED] and [M] returned [ROLLBACK_FAILED], the
    counter is [N], however many calls raised in between. *)
Theorem total_rollbacks_counts_completed :
  (forall rt self request s,
      match execute_rollback rt self request s with
      | (Ok (response, self'), _) =>
          total_rollbacks self'
          = (total_rollbacks self
             + match RollbackResponse.status response with
               | ROLLBACK_COMPLETED => 1
               | _ => 0
               end)%Z
      | (Raise e, _) => fst (validate_environment rt self s) = Raise e
      end)
  /\ (forall compose_file env_file calls s,
         let '(outcomes, self', _) :=
           run_rollbacks (init compose_file env_file) calls s in
         length outcomes = length calls
         /\ count_status ROLLBACK_COMPLETED (returned outcomes)
            + count_status ROLLBACK_FAILED (returned outcomes)
            = length (returned outcomes)
         /\ total_rollbacks self'
            = Z.of_nat (count_status ROLLBACK_COMPLETED (returned outcomes))).
Proof.
  split.
  - intros rt self request s.
    pose proof (execute_rollback_summary rt self request s) as Hs.
    destruct (execute_rollback rt self request s)
      as [[[response self']|e] s']; [|done].
    destruct Hs as (_ & _ & _ & _ & [[-> ->]|[-> ->]]); lia.
  - intros compose_file env_file calls s.
    pose proof (run_rollbacks_total calls (init compose_file env_file) s)
      as Ht.
    destruct (run_rollbacks (init compose_file env_file) calls s)
      as [[outcomes self'] s'].
    destruct Ht as (Hlen & Hcnt & Htot & _).
    split; [done|]. split; [done|]. rewrite Htot. cbn. lia.
Qed.

(** Two calls on a new executor: the first completes, the second fails on
    a restart command that exits with status 1. The counter is 1. *)
Lemma run_rollbacks_completed_then_failed :
  let request := request_for ORDER_SERVICE (txt "v1.0") in
  let '(outcomes, self', _) :=
    run_rollbacks default_executor
      [(runtime_of all_succeed, request);
       (runtime_of restart_exits_nonzero, request)]
      (host_with (txt "ORDER_SERVICE_VERSION=v1.1-bad" ++ [LF])) in
  List.map RollbackResponse.status (returned outcomes)
  = [ROLLBACK_COMPLETED; ROLLBACK_FAILED]
  /\ length outcomes = 2
  /\ total_rollbacks self' = 1%Z.
Proof. vm_compute. repeat split. Qed.

(** Two calls on a host whose [stat] is denied on the version file: both
    raise, no record is returned, and the executor is as it was. *)
Lemma run_rollbacks_stat_denied :
  let request := request_for ORDER_SERVICE (txt "v1.0") in
  let '(outcomes, self', _) :=
    run_rollbacks default_executor
      [(runtime_of all_succeed, request); (runtime_of all_succeed, request)]
      host_stat_denied in
  returned outcomes = []
  /\ length outcomes = 2
  /\ self' = default_executor.
Proof. vm_compute. repeat split. Qed.

(** C2. When [validate_environment] fails, for whichever of its three
    reasons, [execute_rollback] returns a [ROLLBACK_FAILED] record that
    carries the validation message, and the file table is what it was: the
    version file is unchanged, and a missing one is not created. The counter
    does not move. *)
Theorem execute_rollback_validation_failure (rt : Runtime)
  (self : RollbackExecutor) (request : RollbackRequest.t) (s : Sys)
  (error_msg : text) :
  fst (validate_environment rt self s) = Ok (false, error_msg) ->
  exists response self' s',
    execute_rollback rt self request s = (Ok (response, self'), s')
    /\ RollbackResponse.status response = ROLLBACK_FAILED
    /\ RollbackResponse.error response = Some error_msg
    /\ files s' = files s
    /\ files s' !! env_file self = files s !! env_file self
    /\ total_rollbacks self' = total_rollbacks self.
Proof.
  intros Hv.
  destruct (execute_rollback_run rt self request s)
    as (valid & restarted & Hv' & _ & cmds & E).
  rewrite Hv in Hv'. simplify_eq. rewrite E.
  eexists _, _, _. split; [reflexivity|]. by cbn.
Qed.

(** The scenario of the missing version file. *)
Lemma execute_rollback_validation_failure_witness :
  exists response self' s',
    execute_rollback (runtime_of all_succeed) default_executor
      (request_for ORDER_SERVICE (txt "v1.0")) host_without_store
    = (Ok (response, self'), s')
    /\ RollbackResponse.status response = ROLLBACK_FAILED
    /\ RollbackResponse.error response
       = Some (txt "Environment file not found: /app/infra/.env")
    /\ files s' = files host_without_store
    /\ files s' !! env_file default_executor
       = files host_without_store !! env_file default_executor
    /\ total_rollbacks self' = total_rollbacks default_executor.
Proof.
  apply (execute_rollback_validation_failure (runtime_of all_succeed)
           default_executor (request_for ORDER_SERVICE (txt "v1.0"))
           host_without_store
           (txt "Environment file not found: /app/infra/.env")).
  vm_compute. reflexivity.
Defined.

(** C1, on an input where it fails: the restart command exits with status 1
    and writes ["Container not found"] to its standard error. The record is
    [ROLLBACK_FAILED] and the store is pinned to the target, but the error of
    the record is not that text: it is that text behind a prefix. *)
Lemma execute_rollback_restart_failure_error_prefixed :
  let rt := runtime_of restart_exits_nonzero in
  let s := host_with (txt "ORDER_SERVICE_VERSION=v1.1-bad" ++ [LF]) in
  let request := request_for ORDER_SERVICE (txt "v1.0") in
  run_outcome rt (restart_command default_executor ORDER_SERVICE compose_v2)
  = Exited 1 [] (txt "Container not found")
  /\ exists response self' s',
       execute_rollback rt default_executor request s
       = (Ok (response, self'), s')
       /\ RollbackResponse.status response = ROLLBACK_FAILED
       /\ RollbackResponse.error response
          = Some (txt "Failed to restart service: Container not found")
       /\ RollbackResponse.error response <> Some (txt "Container not found")
       /\ store_lines default_executor s'
          = [txt "ORDER_SERVICE_VERSION=v1.0" ++ [LF]].
Proof.
  split; [vm_compute; reflexivity|].
  eexists _, _, _. split; [vm_compute; reflexivity|].
  vm_compute. repeat split. discriminate.
Qed.

(** C1, amended. When validation passes, the write of the version file
    succeeds and the restart command exits with a non-zero status,
    [execute_rollback] returns a [ROLLBACK_FAILED] record whose error is
    ["Failed to restart service: "] followed by the standard error of the
    restart command. The file table is the one the write left: nothing is
    written back. For a target label with no white space at either end and
    no line break, and a file that already pins the service or whose lines
    are all terminated, the version file then reads back as the target. *)
Theorem execute_rollback_restart_failure (rt : Runtime)
  (self : RollbackExecutor) (request : RollbackRequest.t) (s : Sys)
  (msg : text) (rcp rc : Z) (outp errp out err : text) :
  let service := RollbackRequest.service request in
  let target_version := RollbackRequest.target_version request in
  fst (validate_environment rt self s) = Ok (true, msg) ->
  fst (update_service_version self service target_version s) = Ok true ->
  run_outcome rt probe_command = Exited rcp outp errp ->
  run_outcome rt
    (restart_command self service
       (if (rcp =? 0)%Z then compose_v2 else compose_v1))
  = Exited rc out err ->
  rc <> 0%Z ->
  exists response self' s',
    execute_rollback rt self request s = (Ok (response, self'), s')
    /\ RollbackResponse.status response = ROLLBACK_FAILED
    /\ RollbackResponse.error response
       = Some (txt "Failed to restart service: " ++ err)
    /\ files s'
       = files (snd (update_service_version self service target_version s))
    /\ total_rollbacks self' = total_rollbacks self
    /\ (clean_version target_version ->
        has_key service (store_lines self s) = true
        \/ newline_terminated (store_lines self s) = true ->
        fst (get_current_version self service s') = Ok (Some target_version)).
Proof.
  intros service target_version Hv Hu Hp Hc Hrc.
  destruct (execute_rollback_run rt self request s)
    as (valid & restarted & Hv' & Hr' & cmds & E).
  fold service target_version in E, Hr'.
  rewrite Hv in Hv'. simplify_eq.
  rewrite restart_service_run, Hp in Hr'. cbn [fst] in Hr'.
  rewrite Hc in Hr'. apply Z.eqb_neq in Hrc. rewrite Hrc in Hr'.
  simplify_eq. rewrite Hu in E. rewrite E.
  eexists _, _, _. split; [reflexivity|]. cbn.
  repeat split.
  intros Hclean Hcond.
  pose proof (round_trip_run self service target_version s Hu Hclean Hcond)
    as Hrt.
  rewrite get_current_version_run in Hrt.
  by rewrite get_current_version_run.
Qed.

(** The scenario of the failed restart, on a file that pins the order
    service to ["v1.1-bad"]. *)
Lemma execute_rollback_restart_failure_witness :
  exists response self' s',
    execute_rollback (runtime_of restart_exits_nonzero) default_executor
      (request_for ORDER_SERVICE (txt "v1.0"))
      (host_with (txt "ORDER_SERVICE_VERSION=v1.1-bad" ++ [LF]))
    = (Ok (response, self'), s')
    /\ RollbackResponse.status response = ROLLBACK_FAILED
    /\ RollbackResponse.error response
       = Some (txt "Failed to restart service: Container not found")
    /\ fst (get_current_version default_executor ORDER_SERVICE s')
       = Ok (Some (txt "v1.0")).
Proof.
  destruct (execute_rollback_restart_failure
              (runtime_of restart_exits_nonzero) default_executor
              (request_for ORDER_SERVICE (txt "v1.0"))
              (host_with (txt "ORDER_SERVICE_VERSION=v1.1-bad" ++ [LF]))
              [] 0%Z 1%Z [] [] [] (txt "Container not found"))
    as (response & self' & s' & E & Hst & Herr & _ & _ & Hget).
  - vm_compute. reflexivity.
  - vm_compute. reflexivity.
  - vm_compute. reflexivity.
  - vm_compute. reflexivity.
  - lia.
  - exists response, self', s'. split; [exact E|].
    split; [exact Hst|]. split; [exact Herr|].
    apply Hget.
    + split; [vm_compute; reflexivity|].
      split; apply (bool_decide_unpack _); vm_compute; reflexivity.
    + left. vm_compute. reflexivity.
Defined.

End ExecutorFacts.

(** ** More on the version store accessor *)

Section AccessorMore.

Import TextIO.

Lemma lstrip_app_keep (s r : text) (x : ascii) :
  Str.isspace x = false ->
  Str.lstrip (s ++ x :: r) = Str.lstrip s ++ x :: r.
Proof.
  intros Hx. induction s as [|c s IH]; simpl; [by rewrite Hx|].
  by destruct (Str.isspace c).
Qed.

Lemma rstrip_app_keep (a w : text) (x : ascii) :
  Str.isspace x = false ->
  Str.rstrip (a ++ x :: w) = a ++ x :: Str.rstrip w.
Proof.
  intros Hx. unfold Str.rstrip.
  rewrite reverse_app, reverse_cons, <- app_assoc. simpl.
  rewrite lstrip_app_keep by done.
  rewrite reverse_app, reverse_cons, reverse_involutive.
  by rewrite <- app_assoc.
Qed.

(** Stripped, the line written for a key is the key, ["="], and the label
    with what [rstrip] leaves of it. *)
Lemma strip_new_line_any (service : ServiceName) (version : text) :
  Str.strip (new_line (_get_env_var_name service) version)
  = _get_env_var_name service
    ++ "="%char :: Str.rstrip (version ++ [LF]).
Proof.
  destruct (env_var_shape service) as (_ & _ & _ & c & rest & Hk & Hc).
  unfold new_line, Str.strip. rewrite Hk.
  rewrite <- app_comm_cons, lstrip_head by done.
  rewrite app_comm_cons. by apply rstrip_app_keep.
Qed.

Lemma matches_new_line_any (service : ServiceName) (version : text) :
  matches (_get_env_var_name service)
    (new_line (_get_env_var_name service) version) = true.
Proof.
  unfold matches. rewrite strip_new_line_any.
  replace (_get_env_var_name service ++ "="%char :: Str.rstrip (version ++ [LF]))
    with ((_get_env_var_name service ++ txt "=")
          ++ Str.rstrip (version ++ [LF]))
    by (by rewrite <- app_assoc).
  apply startswith_app.
Qed.

(** A text that starts with the key of one service and ["="] does not start
    with the key of another service and ["="]. *)
Lemma startswith_other_key (a b : ServiceName) (r : text) :
  a <> b ->
  Str.startswith (_get_env_var_name b ++ txt "=")
    ((_get_env_var_name a ++ txt "=") ++ r) = false.
Proof. destruct a, b; intros H; try done; reflexivity. Qed.

Lemma matches_other_key (a b : ServiceName) (line : text) :
  a <> b ->
  matches (_get_env_var_name a) line = true ->
  matches (_get_env_var_name b) line = false.
Proof.
  unfold matches. intros Hab Ha.
  apply startswith_inv in Ha as [r ->]. by apply startswith_other_key.
Qed.

Lemma find_skip_one {A} (f : A -> bool) (pre post : list A) (x : A) :
  f x = false -> List.find f (pre ++ x :: post) = List.find f (pre ++ post).
Proof.
  intros Hx. induction pre as [|p pre IH]; simpl; [by rewrite Hx|].
  by destruct (f p).
Qed.

Lemma first_match_app (key : text) (pre post : list text) (x : text)
  (start : nat) :
  Forall (fun l => matches key l = false) pre ->
  matches key x = true ->
  first_match key (pre ++ x :: post) start = Some (start + length pre).
Proof.
  intros Hpre Hx. revert start.
  induction Hpre as [|p pre Hp _ IH]; intros start; cbn [first_match app].
  - change (Str.startswith _ _) with (matches key x). rewrite Hx.
    f_equal. simpl. lia.
  - change (Str.startswith _ _) with (matches key p). rewrite Hp.
    rewrite IH. f_equal. simpl. lia.
Qed.

(** On the list of lines, a second update with the same label changes
    nothing. *)
Lemma update_lines_idem (service : ServiceName) (version : text)
  (lines : list text) :
  let key := _get_env_var_name service in
  update_lines key version (update_lines key version lines)
  = update_lines key version lines.
Proof.
  intros key.
  pose proof (matches_new_line_any service version) as Hm. fold key in Hm.
  assert (forall pre post,
             Forall (fun l => matches key l = false) pre ->
             update_lines key version (pre ++ new_line key version :: post)
             = pre ++ new_line key version :: post) as Hfix.
  { intros pre post Hpre. unfold update_lines.
    rewrite first_match_app by done. simpl.
    rewrite <- (Nat.add_0_r (length pre)). by rewrite insert_app_r. }
  destruct (update_lines_cases key version lines)
    as [(pre & l & post & -> & Hpre & _ & ->)|[Hall ->]]; by apply Hfix.
Qed.

(** A later update replaces the line of an earlier one. *)
Lemma update_lines_overwrite (service : ServiceName) (v1 v2 : text)
  (lines : list text) :
  let key := _get_env_var_name service in
  update_lines key v2 (update_lines key v1 lines)
  = update_lines key v2 lines.
Proof.
  intros key.
  pose proof (matches_new_line_any service v1) as Hm. fold key in Hm.
  destruct (update_lines_cases key v1 lines)
    as [(pre & l & post & -> & Hpre & Hl & ->)|[Hall ->]].
  - unfold update_lines. rewrite !first_match_app by done. simpl.
    rewrite <- (Nat.add_0_r (length pre)). by rewrite !insert_app_r.
  - unfold update_lines. rewrite first_match_app by done.
    destruct (first_match key lines 0) as [i|] eqn:E.
    + apply first_match_Some in E as (pre & l & post & -> & _ & Hl & _).
      rewrite Forall_app, Forall_cons in Hall. destruct Hall as (_ & Hl' & _).
      congruence.
    + simpl. rewrite <- (Nat.add_0_r (length lines)). by rewrite insert_app_r.
Qed.

Lemma has_key_update_lines (service : ServiceName) (version : text)
  (lines : list text) :
  has_key service (update_lines (_get_env_var_name service) version lines)
  = true.
Proof.
  unfold has_key. apply existsb_exists.
  exists (new_line (_get_env_var_name service) version).
  split; [|apply matches_new_line_any].
  apply list_elem_of_In.
  destruct (update_lines_cases (_get_env_var_name service) version lines)
    as [(pre & l & post & -> & _ & _ & ->)|[_ ->]];
    rewrite elem_of_app; right; by left.
Qed.

(** The lines of the file after a successful write, for a label without
    line break that does not land behind an unterminated line. *)
Lemma store_lines_after_update (self : RollbackExecutor)
  (service : ServiceName) (version : text) (s : Sys) :
  fst (update_service_version self service version s) = Ok true ->
  LF ∉ version -> CR ∉ version ->
  has_key service (store_lines self s) = true
  \/ newline_terminated (store_lines self s) = true ->
  store_lines self (snd (update_service_version self service version s))
  = update_lines (_get_env_var_name service) version (store_lines self s).
Proof.
  intros Hok Hlf Hcr Hcond.
  rewrite update_service_version_run in *. unfold store_lines in *.
  destruct (files s !! env_file self) as [[data [|]| |data after|msg]|] eqn:E; try done.
  simpl. rewrite lookup_insert_eq.
  by rewrite update_lines_reread;
    [|done|done|apply readlines_wf|apply readlines_no_CR|done].
Qed.

(** After a successful write the file is still a writable file, so the next
    write succeeds too. *)
Lemma update_service_version_again (self : RollbackExecutor)
  (a b : ServiceName) (v1 v2 : text) (s : Sys) :
  fst (update_service_version self a v1 s) = Ok true ->
  fst (update_service_version self b v2
         (snd (update_service_version self a v1 s))) = Ok true.
Proof.
  intros Hok. rewrite (update_service_version_run self a) in *.
  destruct (files s !! env_file self) as [[data [|]| |data after|msg]|] eqn:E; try done.
  rewrite update_service_version_run. simpl. by rewrite lookup_insert_eq.
Qed.

Lemma readVersion_spec_lines (self : RollbackExecutor) (service : ServiceName)
  (s : Sys) :
  fst (get_current_version self service s)
  = Ok (match List.find (matches (_get_env_var_name service))
                (store_lines self s) with
        | Some line =>
            Some (Str.strip (drop (length (_get_env_var_name service) + 1)
                               (Str.strip line)))
        | None => None
        end).
Proof.
  rewrite get_current_version_run. unfold readVersion_spec, store_lines.
  by destruct (files s !! env_file self) as [[data w| |data after|msg]|].
Qed.

(** X1. The keys of two different services are different, and no line is a
    line of both: a line that matches the key of one service does not match
    the key of another. *)
Theorem env_var_names_exclusive (a b : ServiceName) :
  a <> b ->
  _get_env_var_name a <> _get_env_var_name b
  /\ forall line,
       matches (_get_env_var_name a) line = true ->
       matches (_get_env_var_name b) line = false.
Proof.
  intros Hab. split.
  - destruct a, b; try done; discriminate.
  - intros line. by apply matches_other_key.
Qed.

(** Two services on the line that pins the order service. *)
Lemma env_var_names_exclusive_witness :
  _get_env_var_name ORDER_SERVICE <> _get_env_var_name PAYMENT_SERVICE
  /\ matches (_get_env_var_name PAYMENT_SERVICE)
       (txt "ORDER_SERVICE_VERSION=v1.0" ++ [LF]) = false.
Proof.
  destruct (env_var_names_exclusive ORDER_SERVICE PAYMENT_SERVICE)
    as [Hne Hline]; [discriminate|].
  split; [exact Hne|]. apply Hline. vm_compute. reflexivity.
Defined.

(** X2. A successful write for one service does not change what
    [get_current_version] returns for another service, when the label has no
    line break and the written service is already pinned or every line of
    the file is terminated. *)
Theorem update_keeps_other_services (self : RollbackExecutor)
  (a b : ServiceName) (version : text) (s : Sys) :
  a <> b ->
  fst (update_service_version self a version s) = Ok true ->
  LF ∉ version -> CR ∉ version ->
  has_key a (store_lines self s) = true
  \/ newline_terminated (store_lines self s) = true ->
  fst (get_current_version self b
         (snd (update_service_version self a version s)))
  = fst (get_current_version self b s).
Proof.
  intros Hab Hok Hlf Hcr Hcond.
  rewrite !readVersion_spec_lines, store_lines_after_update by done.
  assert (matches (_get_env_var_name b)
            (new_line (_get_env_var_name a) version) = false) as Hnew
    by (apply (matches_other_key a b); [done|apply matches_new_line_any]).
  destruct (update_lines_cases (_get_env_var_name a) version
              (store_lines self s))
    as [(pre & l & post & -> & _ & Hl & ->)|[_ ->]].
  - rewrite !find_skip_one; [done| |done].
    by apply (matches_other_key a b).
  - rewrite find_skip_one by done. by rewrite app_nil_r.
Qed.

(** The payment service stays pinned to ["v1.0"] when the order service,
    pinned on the line before, is rolled back. *)
Lemma update_keeps_other_services_witness :
  fst (get_current_version default_executor PAYMENT_SERVICE
         (snd (update_service_version default_executor ORDER_SERVICE
                 (txt "v1.0")
                 (host_with (txt "ORDER_SERVICE_VERSION=v1.1-bad" ++ [LF]
                             ++ txt "PAYMENT_SERVICE_VERSION=v1.0")))))
  = fst (get_current_version default_executor PAYMENT_SERVICE
           (host_with (txt "ORDER_SERVICE_VERSION=v1.1-bad" ++ [LF]
                       ++ txt "PAYMENT_SERVICE_VERSION=v1.0"))).
Proof.
  apply update_keeps_other_services.
  - discriminate.
  - vm_compute. reflexivity.
  - apply (bool_decide_unpack _). vm_compute. reflexivity.
  - apply (bool_decide_unpack _). vm_compute. reflexivity.
  - left. vm_compute. reflexivity.
Defined.

(** X3. A successful write changes one line of the file and no other, for a
    label without line break: when a line of the service exists, the first
    such line is replaced in place; when none exists and every line of the
    file is terminated, the new line is added after the last. *)
Theorem update_service_version_keeps_other_lines (self : RollbackExecutor)
  (service : ServiceName) (version : text) (s : Sys) :
  fst (update_service_version self service version s) = Ok true ->
  LF ∉ version -> CR ∉ version ->
  has_key service (store_lines self s) = true
  \/ newline_terminated (store_lines self s) = true ->
  rewrites_only_key_line (_get_env_var_name service)
    (new_line (_get_env_var_name service) version)
    (store_lines self s)
    (store_lines self (snd (update_service_version self service version s))).
Proof.
  intros Hok Hlf Hcr Hcond.
  rewrite store_lines_after_update by done. apply update_lines_cases.
Qed.

(** The update case on a file whose last line is not terminated. *)
Lemma update_service_version_keeps_other_lines_witness :
  rewrites_only_key_line (_get_env_var_name ORDER_SERVICE)
    (new_line (_get_env_var_name ORDER_SERVICE) (txt "v1.0"))
    (store_lines default_executor
       (host_with (txt "ORDER_SERVICE_VERSION=v1.1-bad" ++ [LF]
                   ++ txt "FOO=bar")))
    (store_lines default_executor
       (snd (update_service_version default_executor ORDER_SERVICE
               (txt "v1.0")
               (host_with (txt "ORDER_SERVICE_VERSION=v1.1-bad" ++ [LF]
                           ++ txt "FOO=bar"))))).
Proof.
  apply update_service_version_keeps_other_lines.
  - vm_compute. reflexivity.
  - apply (bool_decide_unpack _). vm_compute. reflexivity.
  - apply (bool_decide_unpack _). vm_compute. reflexivity.
  - left. vm_compute. reflexivity.
Defined.

Lemma update_service_version_twice (self : RollbackExecutor)
  (service : ServiceName) (version : text) (s : Sys) :
  let s1 := snd (update_service_version self service version s) in
  fst (update_service_version self service version s) = Ok true ->
  LF ∉ version -> CR ∉ version ->
  has_key service (store_lines self s) = true
  \/ newline_terminated (store_lines self s) = true ->
  update_service_version self service version s1 = (Ok true, s1).
Proof.
  intros s1 Hok Hlf Hcr Hcond. unfold s1. clear s1.
  rewrite (update_service_version_run self service version s) in *.
  unfold store_lines in Hcond.
  destruct (files s !! env_file self) as [[data [|]| |data after|msg]|] eqn:E; try done.
  rewrite update_service_version_run. cbn [snd files commands ticks].
  rewrite lookup_insert_eq.
  rewrite update_lines_reread;
    [|done|done|apply readlines_wf|apply readlines_no_CR|done].
  by rewrite update_lines_idem, insert_insert_eq.
Qed.

(** X4. Writing the same label twice is writing it once: after a successful
    write of a label without line break (the service already pinned, or every
    line terminated), a second write of that label succeeds and leaves the
    host exactly as the first one left it. *)
Theorem update_service_version_idempotent (self : RollbackExecutor)
  (service : ServiceName) (version : text) (s : Sys) :
  let s1 := snd (update_service_version self service version s) in
  fst (update_service_version self service version s) = Ok true ->
  LF ∉ version -> CR ∉ version ->
  has_key service (store_lines self s) = true
  \/ newline_terminated (store_lines self s) = true ->
  update_service_version self service version s1 = (Ok true, s1).
Proof. apply update_service_version_twice. Qed.

(** The label ["v1.0"] written twice into a file that pins the service. *)
Lemma update_service_version_idempotent_witness :
  update_service_version default_executor ORDER_SERVICE (txt "v1.0")
    (snd (update_service_version default_executor ORDER_SERVICE (txt "v1.0")
            (host_with (txt "ORDER_SERVICE_VERSION=v1.1-bad" ++ [LF]))))
  = (Ok true,
     snd (update_service_version default_executor ORDER_SERVICE (txt "v1.0")
            (host_with (txt "ORDER_SERVICE_VERSION=v1.1-bad" ++ [LF])))).
Proof.
  apply update_service_version_idempotent.
  - vm_compute. reflexivity.
  - apply (bool_decide_unpack _). vm_compute. reflexivity.
  - apply (bool_decide_unpack _). vm_compute. reflexivity.
  - left. vm_compute. reflexivity.
Defined.

(** X5. The last write wins: after a successful write of a first label
    (without line break; the service already pinned, or every line
    terminated) and a write of a second label (no white space at either end,
    no line break), [get_current_version] returns the second label, and the
    file is the one that writing the second label alone would have left. *)
Theorem update_service_version_last_wins (self : RollbackExecutor)
  (service : ServiceName) (v1 v2 : text) (s : Sys) :
  let s1 := snd (update_service_version self service v1 s) in
  let s2 := snd (update_service_version self service v2 s1) in
  fst (update_service_version self service v1 s) = Ok true ->
  LF ∉ v1 -> CR ∉ v1 ->
  has_key service (store_lines self s) = true
  \/ newline_terminated (store_lines self s) = true ->
  clean_version v2 ->
  fst (get_current_version self service s2) = Ok (Some v2)
  /\ s2 = snd (update_service_version self service v2 s).
Proof.
  intros s1 s2 Hok Hlf Hcr Hcond Hclean. unfold s2, s1. clear s1 s2. split.
  - apply round_trip_run; [by apply update_service_version_again|done|].
    left. rewrite store_lines_after_update by done.
    apply has_key_update_lines.
  - rewrite (update_service_version_run self service v1 s) in *.
    rewrite (update_service_version_run self service v2 s).
    unfold store_lines in Hcond.
    destruct (files s !! env_file self) as [[data [|]| |data after|msg]|] eqn:E; try done.
    rewrite update_service_version_run. cbn [snd files commands ticks].
    rewrite lookup_insert_eq.
    rewrite update_lines_reread;
      [|done|done|apply readlines_wf|apply readlines_no_CR|done].
    by rewrite update_lines_overwrite, insert_insert_eq.
Qed.

(** The bad version is written first, the good one after it, into a file
    without a line for the service. *)
Lemma update_service_version_last_wins_witness :
  fst (get_current_version default_executor ORDER_SERVICE
         (snd (update_service_version default_executor ORDER_SERVICE
                 (txt "v1.0")
                 (snd (update_service_version default_executor ORDER_SERVICE
                         (txt "v1.1-bad")
                         (host_with (txt "ENVIRONMENT=local" ++ [LF])))))))
  = Ok (Some (txt "v1.0")).
Proof.
  apply (update_service_version_last_wins default_executor ORDER_SERVICE
           (txt "v1.1-bad") (txt "v1.0")
           (host_with (txt "ENVIRONMENT=local" ++ [LF]))).
  - vm_compute. reflexivity.
  - apply (bool_decide_unpack _). vm_compute. reflexivity.
  - apply (bool_decide_unpack _). vm_compute. reflexivity.
  - right. vm_compute. reflexivity.
  - split; [vm_compute; reflexivity|].
    split; apply (bool_decide_unpack _); vm_compute; reflexivity.
Defined.

(** X6. [update_service_version] never raises. It returns [False] exactly
    when the version file is not a file that opens for reading and takes
    the write: it is missing, unreadable or read-only, or the write fails.
    When the file could not be opened, the failed call leaves the host as
    it was: a missing file is not created and a read-only file keeps its
    contents. When the write fails after the file has been opened for
    writing, the file is left as the failed write left it, truncated:
    nothing puts back what it held. *)
Theorem update_service_version_failure (self : RollbackExecutor)
  (service : ServiceName) (version : text) (s : Sys) :
  (exists updated,
      fst (update_service_version self service version s) = Ok updated)
  /\ (fst (update_service_version self service version s) = Ok false <->
      ~ exists data, files s !! env_file self = Some (Regular data true))
  /\ (fst (update_service_version self service version s) = Ok false ->
      (forall data after,
          files s !! env_file self <> Some (Fragile data after)) ->
      snd (update_service_version self service version s) = s)
  /\ (forall data after,
         files s !! env_file self = Some (Fragile data after) ->
         update_service_version self service version s
         = (Ok false,
            {| files := <[env_file self := after]> (files s);
               commands := commands s;
               ticks := ticks s |})).
Proof.
  rewrite update_service_version_run.
  destruct (files s !! env_file self) as [[data [|]| |data after|msg]|] eqn:E;
    cbn [fst snd]; (split; [by eexists|]).
  - split; [|done]. split; [done|]. intros H. destruct H. by exists data.
  - split; [|done]. split; [|done]. intros _ [d Hd]. discriminate.
  - split; [|done]. split; [|done]. intros _ [d Hd]. discriminate.
  - split; [split; [|done]; intros _ [d Hd]; discriminate|].
    split; [intros _ H; by destruct (H data after)|].
    intros d a Hd. by simplify_eq.
  - split; [|done]. split; [|done]. intros _ [d Hd]. discriminate.
  - split; [|done]. split; [|done]. intros _ [d Hd]. discriminate.
Qed.

(** The missing version file stays missing. *)
Lemma update_service_version_failure_witness :
  snd (update_service_version default_executor ORDER_SERVICE (txt "v1.0")
         host_without_store)
  = host_without_store.
Proof.
  apply (proj1 (proj2 (proj2
           (update_service_version_failure default_executor ORDER_SERVICE
              (txt "v1.0") host_without_store)))).
  - vm_compute. reflexivity.
  - intros data after. vm_compute. discriminate.
Defined.

(** The write that fails on a full disk: the call returns [False], and the
    version file, which pinned the order service, is empty afterwards. *)
Lemma update_service_version_disk_full :
  let s := host_disk_full (txt "ORDER_SERVICE_VERSION=v1.1-bad" ++ [LF]) in
  let r := update_service_version default_executor ORDER_SERVICE
             (txt "v1.0") s in
  fst (get_current_version default_executor ORDER_SERVICE s)
  = Ok (Some (txt "v1.1-bad"))
  /\ fst r = Ok false
  /\ store_lines default_executor (snd r) = []
  /\ fst (get_current_version default_executor ORDER_SERVICE (snd r))
     = Ok None.
Proof. vm_compute. repeat split. Qed.

End AccessorMore.

(** ** More on the rollback executor *)

Section ExecutorMore.

(** [restart_service] on any host: the result is that on [s0], and the
    commands of the restart are added at the end. *)
Lemma restart_service_at (rt : Runtime) (self : RollbackExecutor)
  (service : ServiceName) (s s0 : Sys) :
  restart_service rt self service s
  = (fst (restart_service rt self service s0),
     {| files := files s;
        commands := commands s ++ restart_commands rt self service;
        ticks := ticks s |}).
Proof.
  rewrite !restart_service_run. unfold restart_commands.
  destruct (run_outcome rt probe_command) as [rcp outp errp|m|m];
    cbn [fst]; by rewrite <- ?app_assoc.
Qed.

Lemma restart_service_ok (rt : Runtime) (self : RollbackExecutor)
  (service : ServiceName) (s : Sys) :
  exists ok msg, fst (restart_service rt self service s) = Ok (ok, msg).
Proof.
  destruct (restart_service_frame rt self service s)
    as ([ok msg] & cmds & -> & _). by exists ok, msg.
Qed.

(** The commands of one call of [execute_rollback], in order. *)
Lemma execute_rollback_trace (rt : Runtime) (self : RollbackExecutor)
  (request : RollbackRequest.t) (s : Sys) :
  let service := RollbackRequest.service request in
  let target_version := RollbackRequest.target_version request in
  commands (snd (execute_rollback rt self request s))
  = commands s ++ validation_commands self s ++
    match fst (validate_environment rt self s),
          fst (update_service_version self service target_version s) with
    | Ok (true, _), Ok true => restart_commands rt self service
    | _, _ => []
    end.
Proof.
  intros service target_version.
  unfold execute_rollback. fold service target_version.
  unfold bind at 1. unfold utcnow at 1.
  unfold bind at 1. unfold utcnow at 1. cbn [files commands ticks].
  unfold bind at 1. rewrite validate_environment_at.
  destruct (fst (validate_environment rt self s)) as [[[|] msg]|e];
    cbn [negb]; [|cbn; by rewrite app_nil_r..].
  unfold bind at 1. rewrite get_current_version_run.
  unfold bind at 1. cbn [files]. rewrite update_service_version_at.
  destruct (update_service_version_ok self service target_version s)
    as [[|] ->]; cbn [negb]; [|cbn; by rewrite app_nil_r].
  unfold bind at 1. rewrite (restart_service_at rt self service _ s).
  destruct (restart_service_ok rt self service s) as (ok & out & ->).
  destruct ok; cbn; by rewrite app_assoc.
Qed.

Lemma validate_environment_true (rt : Runtime) (self : RollbackExecutor)
  (s : Sys) (msg : text) :
  fst (validate_environment rt self s) = Ok (true, msg) <->
  msg = []
  /\ stat s (env_file self) = Ok true
  /\ stat s (compose_file self) = Ok true
  /\ fst (docker_check rt) = true.
Proof.
  rewrite validate_environment_cases. unfold docker_check.
  destruct (stat s (env_file self)) as [[|]|e];
    [|split; [intros ?; by simplify_eq|intros (-> & ? & ? & ?); by simplify_eq]..].
  destruct (stat s (compose_file self)) as [[|]|e];
    [|split; [intros ?; by simplify_eq|intros (-> & ? & ? & ?); by simplify_eq]..].
  destruct (run_outcome rt docker_info) as [rc out err|m|m];
    [destruct (rc =? 0)%Z|..];
    (split; [intros ?; by simplify_eq|intros (-> & ? & ? & ?); by simplify_eq]).
Qed.

Lemma validation_commands_true (rt : Runtime) (self : RollbackExecutor)
  (s : Sys) (msg : text) :
  fst (validate_environment rt self s) = Ok (true, msg) ->
  validation_commands self s = [docker_info].
Proof.
  intros (_ & He & Hc & _)%validate_environment_true.
  unfold validation_commands. by rewrite He, Hc.
Qed.

(** X7. [validate_environment] changes neither a file nor the clock. The
    only command it runs is the Docker check, and it runs it only when both
    files exist. Whatever the Docker check does (exit, timeout, failure to
    launch), the call does not raise because of it: it raises only when
    [stat] fails on the version file, or on the compose file once the
    version file has been found, and then with the exception of [stat].
    Otherwise it reports, in this order, the version file as missing, the
    compose file as missing, or the result of the Docker check, which
    passes exactly when [docker info] exits with status 0. *)
Theorem validate_environment_read_only (rt : Runtime)
  (self : RollbackExecutor) (s : Sys) :
  exists r s',
    validate_environment rt self s = (r, s')
    /\ files s' = files s
    /\ ticks s' = ticks s
    /\ commands s' = commands s ++ validation_commands self s
    /\ r = match stat s (env_file self) with
           | Raise e => Raise e
           | Ok false =>
               Ok (false,
                   txt "Environment file not found: " ++ env_file self)
           | Ok true =>
               match stat s (compose_file self) with
               | Raise e => Raise e
               | Ok false =>
                   Ok (false,
                       txt "Docker Compose file not found: "
                       ++ compose_file self)
               | Ok true => Ok (docker_check rt)
               end
           end
    /\ fst (docker_check rt)
       = match run_outcome rt docker_info with
         | Exited rc _ _ => (rc =? 0)%Z
         | TimedOut _ | LaunchFailed _ => false
         end
    /\ match r with
       | Ok _ => validation_error self s = None
       | Raise e => validation_error self s = Some e
       end.
Proof.
  destruct s as [fs cmds tk].
  pose proof (validate_environment_at rt self
                {| files := fs; commands := cmds; ticks := tk |} cmds tk) as E.
  cbn [files] in E. rewrite E. clear E.
  eexists _, _. split; [reflexivity|]. cbn [files ticks commands].
  split; [done|]. split; [done|]. split; [done|].
  split; [apply validate_environment_cases|].
  split; [|apply validate_environment_error].
  unfold docker_check.
  destruct (run_outcome rt docker_info) as [rc out err|m|m]; try done.
  by destruct (rc =? 0)%Z.
Qed.

(** [stat] is denied on the version file: the validation raises, without
    running the Docker check. On a host where both files exist and
    [docker info] times out, it returns a failure. *)
Lemma validate_environment_examples :
  validate_environment (runtime_of all_succeed) default_executor
    host_stat_denied
  = (Raise (Exception (txt "[Errno 13] Permission denied: '/app/infra/.env'")),
     host_stat_denied)
  /\ fst (validate_environment
            (runtime_of (fun _ => TimedOut (txt "timed out after 5 seconds")))
            default_executor (host_with []))
     = Ok (false, txt "Docker not available: timed out after 5 seconds").
Proof. vm_compute. split; reflexivity. Qed.

(** The call that completes: what it returns and what it leaves. *)
Lemma execute_rollback_success_run (rt : Runtime) (self : RollbackExecutor)
  (request : RollbackRequest.t) (s : Sys)
  (msg : text) (rcp : Z) (outp errp out err : text) :
  let service := RollbackRequest.service request in
  let target_version := RollbackRequest.target_version request in
  fst (validate_environment rt self s) = Ok (true, msg) ->
  fst (update_service_version self service target_version s) = Ok true ->
  run_outcome rt probe_command = Exited rcp outp errp ->
  run_outcome rt
    (restart_command self service
       (if (rcp =? 0)%Z then compose_v2 else compose_v1))
  = Exited 0 out err ->
  exists response s',
    execute_rollback rt self request s
    = (Ok (response, count_rollback (set_last_rollback self response)), s')
    /\ RollbackResponse.status response = ROLLBACK_COMPLETED
    /\ RollbackResponse.error response = None
    /\ RollbackResponse.service response = service
    /\ RollbackResponse.target_version response = target_version
    /\ Ok (RollbackResponse.previous_version response)
       = fst (get_current_version self service s)
    /\ files s'
       = files (snd (update_service_version self service target_version s)).
Proof.
  intros service target_version Hv Hu Hp Hc.
  destruct (execute_rollback_run rt self request s)
    as (valid & restarted & Hv' & Hr' & cmds & E).
  fold service target_version in E, Hr'.
  rewrite Hv in Hv'. simplify_eq.
  rewrite restart_service_run, Hp in Hr'. cbn [fst] in Hr'.
  rewrite Hc in Hr'. cbn in Hr'. simplify_eq.
  rewrite Hu in E. rewrite E.
  eexists _, _. split; [reflexivity|]. cbn.
  by rewrite get_current_version_run.
Qed.

(** X8. The call that completes. When validation passes, the write of the
    version file succeeds and the restart command exits with status 0,
    [execute_rollback] returns a [ROLLBACK_COMPLETED] record without error,
    for the requested service and target, whose previous version is what
    [get_current_version] gave before the write ([None] when the service was
    not pinned). The record becomes the last one, the counter grows by one,
    and the file table is the one the write left. *)
Theorem execute_rollback_success (rt : Runtime) (self : RollbackExecutor)
  (request : RollbackRequest.t) (s : Sys)
  (msg : text) (rcp : Z) (outp errp out err : text) :
  let service := RollbackRequest.service request in
  let target_version := RollbackRequest.target_version request in
  fst (validate_environment rt self s) = Ok (true, msg) ->
  fst (update_service_version self service target_version s) = Ok true ->
  run_outcome rt probe_command = Exited rcp outp errp ->
  run_outcome rt
    (restart_command self service
       (if (rcp =? 0)%Z then compose_v2 else compose_v1))
  = Exited 0 out err ->
  exists response self' s',
    execute_rollback rt self request s = (Ok (response, self'), s')
    /\ RollbackResponse.status response = ROLLBACK_COMPLETED
    /\ RollbackResponse.error response = None
    /\ RollbackResponse.service response = service
    /\ RollbackResponse.target_version response = target_version
    /\ Ok (RollbackResponse.previous_version response)
       = fst (get_current_version self service s)
    /\ last_rollback self' = Some response
    /\ total_rollbacks self' = (total_rollbacks self + 1)%Z
    /\ files s'
       = files (snd (update_service_version self service target_version s)).
Proof.
  intros service target_version Hv Hu Hp Hc.
  destruct (execute_rollback_success_run rt self request s msg rcp outp errp
              out err Hv Hu Hp Hc)
    as (response & s' & E & Hst & Herr & Hsvc & Htv & Hprev & Hfiles).
  exists response, (count_rollback (set_last_rollback self response)), s'.
  by repeat split.
Qed.

(** The scenario of the happy path: the order service goes from
    ["v1.1-bad"] to ["v1.0"]. *)
Lemma execute_rollback_success_witness :
  exists response self' s',
    execute_rollback (runtime_of all_succeed) default_executor
      (request_for ORDER_SERVICE (txt "v1.0"))
      (host_with (txt "ORDER_SERVICE_VERSION=v1.1-bad" ++ [LF]))
    = (Ok (response, self'), s')
    /\ RollbackResponse.status response = ROLLBACK_COMPLETED
    /\ RollbackResponse.previous_version response = Some (txt "v1.1-bad")
    /\ total_rollbacks self' = 1%Z
    /\ store_lines default_executor s' = [txt "ORDER_SERVICE_VERSION=v1.0" ++ [LF]].
Proof.
  destruct (execute_rollback_success (runtime_of all_succeed)
              default_executor (request_for ORDER_SERVICE (txt "v1.0"))
              (host_with (txt "ORDER_SERVICE_VERSION=v1.1-bad" ++ [LF]))
              [] 0%Z (txt "Container order-service  Started") []
              (txt "Container order-service  Started") [])
    as (response & self' & s' & E & Hst & _ & _ & _ & Hprev & _ & Htot & Hf);
    try (vm_compute; reflexivity).
  exists response, self', s'. split; [exact E|]. split; [exact Hst|].
  split; [|split; [exact Htot|]].
  - vm_compute in Hprev. by injection Hprev.
  - unfold store_lines. rewrite Hf. vm_compute. reflexivity.
Defined.

(** X9. The call whose write fails. When validation passes and
    [update_service_version] returns [False], [execute_rollback] returns a
    [ROLLBACK_FAILED] record with the error ["Failed to update .env file"]
    and the previous version as read. The counter is unchanged and no
    restart is attempted: the Docker check is the only command of the call.
    The file table is the one the failed write left: it is unchanged when
    the version file could not be opened for writing, and when the write
    failed after the truncation nothing is put back. *)
Theorem execute_rollback_write_failure (rt : Runtime)
  (self : RollbackExecutor) (request : RollbackRequest.t) (s : Sys)
  (msg : text) :
  let service := RollbackRequest.service request in
  let target_version := RollbackRequest.target_version request in
  fst (validate_environment rt self s) = Ok (true, msg) ->
  fst (update_service_version self service target_version s) = Ok false ->
  exists response self' s',
    execute_rollback rt self request s = (Ok (response, self'), s')
    /\ RollbackResponse.status response = ROLLBACK_FAILED
    /\ RollbackResponse.error response
       = Some (txt "Failed to update .env file")
    /\ Ok (RollbackResponse.previous_version response)
       = fst (get_current_version self service s)
    /\ last_rollback self' = Some response
    /\ total_rollbacks self' = total_rollbacks self
    /\ files s'
       = files (snd (update_service_version self service target_version s))
    /\ ((forall data after,
            files s !! env_file self <> Some (Fragile data after)) ->
        files s' = files s)
    /\ (forall data after,
           files s !! env_file self = Some (Fragile data after) ->
           files s' = <[env_file self := after]> (files s))
    /\ commands s' = commands s ++ [docker_info].
Proof.
  intros service target_version Hv Hu.
  pose proof (execute_rollback_trace rt self request s) as Ht.
  cbv zeta in Ht. fold service target_version in Ht. rewrite Hv, Hu in Ht.
  rewrite (validation_commands_true rt self s msg Hv) in Ht.
  destruct (execute_rollback_run rt self request s)
    as (valid & restarted & Hv' & _ & cmds & E).
  fold service target_version in E.
  rewrite Hv in Hv'. simplify_eq. rewrite Hu in E. rewrite E in Ht |- *.
  eexists _, _, _. split; [reflexivity|]. cbn.
  rewrite get_current_version_run.
  destruct (update_service_version_failure self service target_version s)
    as (_ & _ & Hsame & Hfragile).
  repeat split.
  - intros Hn. by rewrite (Hsame Hu Hn).
  - intros data after Hf. by rewrite (Hfragile data after Hf).
  - cbn in Ht. by rewrite Ht.
Qed.

(** The read-only version file. *)
Lemma execute_rollback_write_failure_witness :
  exists response self' s',
    execute_rollback (runtime_of all_succeed) default_executor
      (request_for ORDER_SERVICE (txt "v1.0"))
      (host_read_only (txt "ORDER_SERVICE_VERSION=v1.1-bad" ++ [LF]))
    = (Ok (response, self'), s')
    /\ RollbackResponse.status response = ROLLBACK_FAILED
    /\ RollbackResponse.error response
       = Some (txt "Failed to update .env file")
    /\ files s'
       = files (host_read_only (txt "ORDER_SERVICE_VERSION=v1.1-bad" ++ [LF]))
    /\ commands s' = [docker_info].
Proof.
  destruct (execute_rollback_write_failure (runtime_of all_succeed)
              default_executor (request_for ORDER_SERVICE (txt "v1.0"))
              (host_read_only (txt "ORDER_SERVICE_VERSION=v1.1-bad" ++ [LF]))
              [])
    as (response & self' & s' & E & Hst & Herr & _ & _ & _ & _ & Hf & _ & Hc);
    try (vm_compute; reflexivity).
  exists response, self', s'. repeat split; try done.
  apply Hf. intros data after. vm_compute. discriminate.
Defined.

(** The write that fails on a full disk, inside a rollback: the record is
    [ROLLBACK_FAILED] and names the version that was pinned, but the
    version file is empty afterwards and no longer pins the service. *)
Lemma execute_rollback_disk_full :
  let s := host_disk_full (txt "ORDER_SERVICE_VERSION=v1.1-bad" ++ [LF]) in
  exists response self' s',
    execute_rollback (runtime_of all_succeed) default_executor
      (request_for ORDER_SERVICE (txt "v1.0")) s
    = (Ok (response, self'), s')
    /\ RollbackResponse.status response = ROLLBACK_FAILED
    /\ RollbackResponse.error response
       = Some (txt "Failed to update .env file")
    /\ RollbackResponse.previous_version response = Some (txt "v1.1-bad")
    /\ store_lines default_executor s' = []
    /\ fst (get_current_version default_executor ORDER_SERVICE s') = Ok None.
Proof.
  cbv zeta. eexists _, _, _. split; [vm_compute; reflexivity|].
  vm_compute. repeat split.
Qed.

(** X10. The commands of a call of [execute_rollback], in order: the
    Docker check when both files exist; after it, and only when validation
    has passed and the write has succeeded, the probe of the compose command
    and, when the probe has exited, the restart command. No other command is
    run, and none when a file is missing. *)
Theorem execute_rollback_commands (rt : Runtime) (self : RollbackExecutor)
  (request : RollbackRequest.t) (s : Sys) :
  commands (snd (execute_rollback rt self request s))
  = commands s ++ validation_commands self s ++
    match fst (validate_environment rt self s),
          fst (update_service_version self
                 (RollbackRequest.service request)
                 (RollbackRequest.target_version request) s) with
    | Ok (true, _), Ok true =>
        restart_commands rt self (RollbackRequest.service request)
    | _, _ => []
    end.
Proof. apply execute_rollback_trace. Qed.

Lemma update_service_version_files (self1 self : RollbackExecutor)
  (service : ServiceName) (version : text) (s1 s : Sys) :
  env_file self1 = env_file self -> files s1 = files s ->
  fst (update_service_version self1 service version s1)
  = fst (update_service_version self service version s)
  /\ files (snd (update_service_version self1 service version s1))
     = files (snd (update_service_version self service version s)).
Proof.
  intros He Hf. rewrite !update_service_version_run, He, Hf.
  by destruct (files s !! env_file self) as [[data [|]| |data after|msg]|].
Qed.

Lemma update_keeps_stat (self : RollbackExecutor)
  (service : ServiceName) (version : text) (s s1 : Sys) (p : text) :
  fst (update_service_version self service version s) = Ok true ->
  files s1 = files (snd (update_service_version self service version s)) ->
  stat s p = Ok true ->
  stat s1 p = Ok true.
Proof.
  unfold stat. intros Hu -> Hp. rewrite update_service_version_run in *.
  destruct (files s !! env_file self) as [[data [|]| |data after|msg]|] eqn:E;
    try done.
  cbn [snd files]. destruct (decide (p = env_file self)) as [->|Hne].
  - by rewrite lookup_insert_eq.
  - by rewrite lookup_insert_ne.
Qed.

(** X11. Repeating a completed rollback is harmless. When a call completes
    for a target label with no white space at either end and no line break
    (the service already pinned, or every line of the file terminated), the
    same request on the host it left, with commands ending the same way,
    completes again: it reports the target as previous version, leaves the
    file table as it is, and the counter has grown by two. *)
Theorem execute_rollback_repeat (rt : Runtime) (self : RollbackExecutor)
  (request : RollbackRequest.t) (s : Sys)
  (msg : text) (rcp : Z) (outp errp out err : text) :
  let service := RollbackRequest.service request in
  let target_version := RollbackRequest.target_version request in
  fst (validate_environment rt self s) = Ok (true, msg) ->
  fst (update_service_version self service target_version s) = Ok true ->
  run_outcome rt probe_command = Exited rcp outp errp ->
  run_outcome rt
    (restart_command self service
       (if (rcp =? 0)%Z then compose_v2 else compose_v1))
  = Exited 0 out err ->
  clean_version target_version ->
  has_key service (store_lines self s) = true
  \/ newline_terminated (store_lines self s) = true ->
  exists r1 self1 s1 r2 self2 s2,
    execute_rollback rt self request s = (Ok (r1, self1), s1)
    /\ execute_rollback rt self1 request s1 = (Ok (r2, self2), s2)
    /\ RollbackResponse.status r2 = ROLLBACK_COMPLETED
    /\ RollbackResponse.previous_version r2 = Some target_version
    /\ files s2 = files s1
    /\ total_rollbacks self2 = (total_rollbacks self + 2)%Z.
Proof.
  intros service target_version Hv Hu Hp Hc Hclean Hcond.
  destruct (execute_rollback_success_run rt self request s msg rcp outp errp
              out err Hv Hu Hp Hc)
    as (r1 & s1 & E1 & _ & _ & _ & _ & _ & Hf1).
  fold service target_version in Hf1.
  set (self1 := count_rollback (set_last_rollback self r1)) in *.
  destruct Hclean as (Hstrip & Hlf & Hcr).
  pose proof (update_service_version_files self1 self service target_version
                s1 (snd (update_service_version self service target_version s))
                eq_refl Hf1) as [Hfst Hfiles].
  pose proof (update_service_version_twice self service target_version s
                Hu Hlf Hcr Hcond) as Htwice. cbv zeta in Htwice.
  rewrite Htwice in Hfst, Hfiles. cbn [fst snd] in Hfst, Hfiles.
  assert (fst (validate_environment rt self1 s1) = Ok (true, [])) as Hv2.
  { apply validate_environment_true in Hv as (_ & He & Hcf & Hd).
    apply validate_environment_true.
    repeat split; try done;
      by apply (update_keeps_stat self service target_version s). }
  destruct (execute_rollback_success_run rt self1 request s1 [] rcp outp errp
              out err Hv2 Hfst Hp Hc)
    as (r2 & s2 & E2 & Hst2 & _ & _ & _ & Hprev & Hf2).
  fold service target_version in Hf2, Hprev.
  exists r1, self1, s1, r2, (count_rollback (set_last_rollback self1 r2)), s2.
  split; [exact E1|]. split; [exact E2|]. split; [exact Hst2|].
  split; [|split].
  - rewrite get_current_version_run in Hprev. cbn [fst] in Hprev.
    change (env_file self1) with (env_file self) in Hprev.
    rewrite Hf1 in Hprev.
    pose proof (round_trip_run self service target_version s Hu
                  (conj Hstrip (conj Hlf Hcr)) Hcond) as Hrt.
    rewrite get_current_version_run in Hrt. cbn [fst] in Hrt.
    rewrite Hrt in Hprev. by injection Hprev.
  - by rewrite Hf2, Hfiles, Hf1.
  - cbn. lia.
Qed.

(** The happy path, twice. *)
Lemma execute_rollback_repeat_witness :
  exists r1 self1 s1 r2 self2 s2,
    execute_rollback (runtime_of all_succeed) default_executor
      (request_for ORDER_SERVICE (txt "v1.0"))
      (host_with (txt "ORDER_SERVICE_VERSION=v1.1-bad" ++ [LF]))
    = (Ok (r1, self1), s1)
    /\ execute_rollback (runtime_of all_succeed) self1
         (request_for ORDER_SERVICE (txt "v1.0")) s1
       = (Ok (r2, self2), s2)
    /\ RollbackResponse.status r2 = ROLLBACK_COMPLETED
    /\ RollbackResponse.previous_version r2 = Some (txt "v1.0")
    /\ files s2 = files s1
    /\ total_rollbacks self2 = 2%Z.
Proof.
  apply (execute_rollback_repeat (runtime_of all_succeed) default_executor
           (request_for ORDER_SERVICE (txt "v1.0"))
           (host_with (txt "ORDER_SERVICE_VERSION=v1.1-bad" ++ [LF]))
           [] 0%Z (txt "Container order-service  Started") []
           (txt "Container order-service  Started") []);
    try (vm_compute; reflexivity).
  - split; [vm_compute; reflexivity|].
    split; apply (bool_decide_unpack _); vm_compute; reflexivity.
  - left. vm_compute. reflexivity.
Defined.

(** X17. The previous version of the record that [execute_rollback]
    returns. When validation fails the version file is not read and the
    record has no previous version, even if the file pins the service; on
    every other path, completed or failed, the previous version is what
    [get_current_version] gives on the host at the start of the call. A
    call that does not return a record raises the exception of the
    validation. *)
Theorem execute_rollback_previous_version (rt : Runtime)
  (self : RollbackExecutor) (request : RollbackRequest.t) (s : Sys) :
  match execute_rollback rt self request s with
  | (Ok (response, _), _) =>
      Ok (RollbackResponse.previous_version response)
      = match fst (validate_environment rt self s) with
        | Ok (true, _) =>
            fst (get_current_version self
                   (RollbackRequest.service request) s)
        | _ => Ok None
        end
  | (Raise e, _) => fst (validate_environment rt self s) = Raise e
  end.
Proof.
  destruct (execute_rollback_run rt self request s)
    as ([[[|] msg]|e] & [[|] output] & -> & _ & cmds & E); rewrite E; clear E;
    cbv zeta;
    try (destruct (fst (update_service_version _ _ _ _)) as [[|]|?]);
    cbn; by rewrite ?get_current_version_run.
Qed.

(** The version file pins the service, but Docker does not answer: the
    record has no previous version. *)
Lemma execute_rollback_previous_version_unread :
  let s := host_with (txt "ORDER_SERVICE_VERSION=v1.1-bad" ++ [LF]) in
  let rt := runtime_of (fun _ => LaunchFailed (txt "No such file: 'docker'")) in
  fst (get_current_version default_executor ORDER_SERVICE s)
  = Ok (Some (txt "v1.1-bad"))
  /\ exists response self' s',
       execute_rollback rt default_executor
         (request_for ORDER_SERVICE (txt "v1.0")) s
       = (Ok (response, self'), s')
       /\ RollbackResponse.previous_version response = None.
Proof.
  cbv zeta. split; [vm_compute; reflexivity|].
  eexists _, _, _. split; vm_compute; reflexivity.
Qed.

End ExecutorMore.

(** ** The web application *)

Section ApplicationFacts.





(** Paths as [pathlib] writes them: the defaults are unchanged, the empty
    text becomes ["."], repeated and final slashes and ["."] go away, two
    slashes in front stay. *)
Lemma Path_str_examples :
  Path_str (txt "/app/infra/.env") = txt "/app/infra/.env"
  /\ Path_str (txt "/app/infra/docker-compose.yml")
     = txt "/app/infra/docker-compose.yml"
  /\ Path_str [] = txt "."
  /\ Path_str (txt "./") = txt "."
  /\ Path_str (txt "/") = txt "/"
  /\ Path_str (txt "/.") = txt "/"
  /\ Path_str (txt "//") = txt "//"
  /\ Path_str (txt "///") = txt "/"
  /\ Path_str (txt "///app//infra/./.env/") = txt "/app/infra/.env"
  /\ Path_str (txt "//app/.env") = txt "//app/.env"
  /\ Path_str (txt "infra/../.env") = txt "infra/../.env".
Proof. vm_compute. repeat split. Qed.

Lemma ready_run (environ : gmap text text) (rt : Runtime) (s : Sys) :
  let env_text := getenv environ (txt "ENV_FILE") (txt "/app/infra/.env") in
  let compose_text :=
    getenv environ (txt "COMPOSE_FILE") (txt "/app/infra/docker-compose.yml") in
  ready environ rt s
  = (Ok (ReadyResponse.mk
           (docker_info_ok rt && (found s env_text && (found s compose_text && true)))
           [(txt "docker", docker_info_ok rt);
            (txt "env_file", found s env_text);
            (txt "compose_file", found s compose_text)]),
     {| files := files s;
        commands := commands s ++ [docker_info];
        ticks := ticks s |}).
Proof.
  intros env_text compose_text.
  unfold ready, bind, try_except, subprocess_run_2s, os_path_exists, ret,
    docker_info_ok, docker_info, found, stat.
  fold env_text compose_text.
  destruct (run_outcome_2s rt [txt "docker"; txt "info"]) as [rc out err|m|m];
    cbn [files commands ticks returncode]; reflexivity.
Qed.

(** X13. [ready] never raises and changes no file. Its three checks are
    the Docker check, within two seconds, and the existence of the version
    file and of the compose file at the paths of the environment as they
    are written there, a [stat] that fails counting as a missing file; it
    answers ready when all three hold. When the two paths are written as
    [pathlib] writes them, and the Docker check ends within two seconds as
    it does within the five of the executor, [ready] answers ready exactly
    when [validate_environment] passes for the executor that startup builds
    from the same environment, on the same files. *)
Theorem ready_agrees_with_validation (environ : gmap text text)
  (rt : Runtime) (s : Sys) :
  let env_text := getenv environ (txt "ENV_FILE") (txt "/app/infra/.env") in
  let compose_text :=
    getenv environ (txt "COMPOSE_FILE") (txt "/app/infra/docker-compose.yml") in
  let rollback_executor := init compose_text env_text in
  exists response s',
    ready environ rt s = (Ok response, s')
    /\ files s' = files s
    /\ ReadyResponse.checks response
       = [(txt "docker", docker_info_ok rt);
          (txt "env_file", found s env_text);
          (txt "compose_file", found s compose_text)]
    /\ ReadyResponse.ready response
       = docker_info_ok rt && found s env_text && found s compose_text
    /\ (Path_str env_text = env_text ->
        Path_str compose_text = compose_text ->
        fst (docker_check rt) = docker_info_ok rt ->
        (ReadyResponse.ready response = true <->
         exists msg,
           fst (validate_environment rt rollback_executor s) = Ok (true, msg))).
Proof.
  intros env_text compose_text ex.
  pose proof (ready_run environ rt s) as E. cbv zeta in E.
  fold env_text compose_text in E. rewrite E. clear E.
  eexists _, _. split; [reflexivity|].
  cbn [files ReadyResponse.checks ReadyResponse.ready].
  split; [done|]. split; [done|].
  split; [by rewrite andb_true_r, andb_assoc|].
  intros He Hc Hd. rewrite <- Hd. unfold found. split.
  - intros H. exists [].
    apply validate_environment_true. cbn [ex init env_file compose_file].
    rewrite He, Hc.
    destruct (fst (docker_check rt)); [|done].
    destruct (stat s env_text) as [[|]|?]; try done.
    by destruct (stat s compose_text) as [[|]|?].
  - intros [msg (_ & H1 & H2 & H3)%validate_environment_true].
    cbn [ex init env_file compose_file] in H1, H2.
    rewrite He in H1. rewrite Hc in H2. by rewrite H1, H2, H3.
Qed.

(** The default paths, on a host that has both files and a Docker daemon
    that answers at once. *)
Lemma ready_agrees_with_validation_witness :
  exists response s',
    ready ∅ (runtime_of all_succeed) (host_with []) = (Ok response, s')
    /\ (ReadyResponse.ready response = true <->
        exists msg,
          fst (validate_environment (runtime_of all_succeed)
                 default_executor (host_with []))
          = Ok (true, msg)).
Proof.
  destruct (ready_agrees_with_validation ∅ (runtime_of all_succeed)
              (host_with []))
    as (response & s' & E & _ & _ & _ & H).
  exists response, s'. split; [exact E|].
  apply H; vm_compute; reflexivity.
Defined.

(** Where [ready] and the validation part. With [ENV_FILE] set to the
    empty text, the executor looks at ["."], which exists, and [ready] at
    the empty path, which does not. With a [docker info] that answers in
    time for the executor but not within two seconds, the validation
    passes and [ready] says no. *)
Lemma ready_and_validation_part :
  let environ : gmap text text := <[txt "ENV_FILE" := []]> ∅ in
  let cwd :=
    {| files := <[txt "." := Unreadable]> (files (host_with []));
       commands := [];
       ticks := 0 |} in
  let slow :=
    {| run_outcome := all_succeed;
       run_outcome_2s := fun _ => TimedOut (txt "timed out after 2 seconds");
       clock := fun n => Z.of_nat n;
       strftime := fun _ => txt "20251209-153045";
       format_seconds := fun _ _ => txt "0.00";
       format_service := service_value;
       current_span := {| trace_id := 0; span_id := 0; is_valid := false |} |} in
  (fst (validate_environment (runtime_of all_succeed)
          (init (txt "/app/infra/docker-compose.yml") []) cwd)
   = Ok (true, [])
   /\ exists response,
        fst (ready environ (runtime_of all_succeed) cwd) = Ok response
        /\ ReadyResponse.ready response = false)
  /\ (fst (validate_environment slow default_executor (host_with []))
      = Ok (true, [])
      /\ exists response,
           fst (ready ∅ slow (host_with [])) = Ok response
           /\ ReadyResponse.ready response = false).
Proof.
  cbv zeta. split; (split; [vm_compute; reflexivity|]);
    eexists; split; vm_compute; reflexivity.
Qed.

(** X14. [health] never raises and changes no file; it reports
    ["healthy"] whatever the Docker check does, and its [docker_available]
    is the Docker check of [ready]: the command exited with status 0. *)
Theorem health_docker_available (environ : gmap text text) (rt : Runtime)
  (s : Sys) :
  exists response s' checks s'',
    health environ rt s = (Ok response, s')
    /\ files s' = files s
    /\ HealthResponse.status response = txt "healthy"
    /\ HealthResponse.docker_available response = docker_info_ok rt
    /\ ready environ rt s = (Ok checks, s'')
    /\ ReadyResponse.checks checks !! 0%nat
       = Some (txt "docker", HealthResponse.docker_available response).
Proof.
  rewrite ready_run.
  unfold health, bind, try_except, subprocess_run_2s, ret,
    docker_info_ok, docker_info.
  destruct (run_outcome_2s rt [txt "docker"; txt "info"]) as [rc out err|m|m];
    cbn [files commands ticks returncode];
    eexists _, _, _, _; repeat split.
Qed.

End ApplicationFacts.

(** ** Trace identifiers *)

Section TraceFacts.

Local Open Scope N_scope.

Lemma hex_of_app (fuel : nat) (n : N) (acc : text) :
  hex_of fuel n acc = hex_of fuel n [] ++ acc.
Proof.
  revert n acc. induction fuel as [|fuel IH]; intros n acc; [done|].
  cbn [hex_of]. destruct (n / 16 =? 0); [done|].
  rewrite (IH _ (_ :: acc)), (IH _ [_]). by rewrite <- app_assoc.
Qed.

Lemma digit_value_hex_digit (d : N) :
  d < 16 -> digit_value (hex_digit d) = Some d.
Proof.
  intros Hd. remember (N.to_nat d) as k eqn:Hk.
  assert (k < 16)%nat as Hlt by lia.
  assert (d = N.of_nat k) as -> by lia. clear Hk Hd.
  do 16 (destruct k as [|k]; [reflexivity|]). lia.
Qed.

Lemma parse_hex_app (l1 l2 : text) (acc v : N) :
  parse_hex acc l1 = Some v -> parse_hex acc (l1 ++ l2) = parse_hex v l2.
Proof.
  revert acc. induction l1 as [|c l1 IH]; intros acc H; cbn in *.
  - by simplify_eq.
  - destruct (digit_value c); [by apply IH|done].
Qed.

Lemma parse_hex_zeros (k : nat) (l : text) :
  parse_hex 0 (replicate k "0"%char ++ l) = parse_hex 0 l.
Proof. induction k as [|k IH]; [done|]. cbn. exact IH. Qed.

Lemma parse_hex_of (fuel : nat) (n : N) :
  n < 2 ^ N.of_nat fuel -> parse_hex 0 (hex_of fuel n []) = Some n.
Proof.
  revert n. induction fuel as [|fuel IH]; intros n Hn.
  - cbn in *. f_equal; lia.
  - cbn [hex_of]. destruct (n / 16 =? 0) eqn:E.
    + apply N.eqb_eq in E. cbn [parse_hex].
      assert (n < 16) as Hlt by (apply N.div_small_iff in E; lia).
      rewrite N.mod_small by done.
      rewrite digit_value_hex_digit by done. f_equal; lia.
    + rewrite hex_of_app.
      assert (n / 16 < 2 ^ N.of_nat fuel) as Hdiv.
      { apply N.Div0.div_lt_upper_bound.
        rewrite Nat2N.inj_succ, N.pow_succ_r' in Hn. lia. }
      rewrite (parse_hex_app _ _ 0 (n / 16)) by (by apply IH).
      cbn [parse_hex].
      rewrite digit_value_hex_digit by (apply N.mod_lt; lia).
      f_equal; pose proof (N.div_mod n 16); lia.
Qed.

Lemma hex_fuel (n : N) : n < 2 ^ N.of_nat (S (N.to_nat (N.log2 n))).
Proof.
  rewrite Nat2N.inj_succ, N2Nat.id.
  destruct n as [|p]; [done|].
  apply N.log2_spec. lia.
Qed.

Lemma hex_of_length (fuel k : nat) (n : N) :
  n < 16 ^ N.of_nat k -> (1 <= k)%nat ->
  (length (hex_of fuel n []) <= k)%nat.
Proof.
  revert n k. induction fuel as [|fuel IH]; intros n k Hn Hk; [cbn; lia|].
  cbn [hex_of]. destruct (n / 16 =? 0) eqn:E; [cbn; lia|].
  apply N.eqb_neq in E. rewrite hex_of_app, length_app. cbn [length].
  destruct k as [|[|k]]; [lia| |].
  - exfalso. apply E. apply N.div_small. by cbn in Hn.
  - assert (n / 16 < 16 ^ N.of_nat (S k)) as Hdiv.
    { apply N.Div0.div_lt_upper_bound.
      rewrite (Nat2N.inj_succ (S k)), N.pow_succ_r' in Hn. lia. }
    specialize (IH (n / 16) (S k) Hdiv ltac:(lia)). lia.
Qed.

(** A number below [16 ^ width] is rendered in exactly [width]
    characters, and every rendering reads back as the number. *)
Lemma format_0x_run (width : nat) (n : N) :
  parse_hex 0 (format_0x width n) = Some n
  /\ (n < 16 ^ N.of_nat width -> (1 <= width)%nat ->
      length (format_0x width n) = width).
Proof.
  unfold format_0x, hex. split.
  - rewrite parse_hex_zeros. apply parse_hex_of, hex_fuel.
  - intros Hn Hw. rewrite length_app, length_replicate.
    pose proof (hex_of_length (S (N.to_nat (N.log2 n))) width n Hn Hw).
    lia.
Qed.

(** X15. The log filter lets every record pass. For identifiers of 128
    and 64 bits it writes a trace id of exactly 32 characters and a span id
    of exactly 16, whether the span is valid or not; for a valid span both
    read back, as hexadecimal numbers, as the identifiers of the span, so
    that different identifiers give different texts. *)
Theorem filter_record_fixed_width (span : SpanContext) :
  trace_id span < 2 ^ 128 -> span_id span < 2 ^ 64 ->
  passes (filter_record span) = true
  /\ length (otelTraceID (filter_record span)) = 32%nat
  /\ length (otelSpanID (filter_record span)) = 16%nat
  /\ (is_valid span = true ->
      parse_hex 0 (otelTraceID (filter_record span)) = Some (trace_id span)
      /\ parse_hex 0 (otelSpanID (filter_record span)) = Some (span_id span)).
Proof.
  intros Ht Hs. unfold filter_record.
  destruct (format_0x_run 32 (trace_id span)) as [Hpt Hlt].
  destruct (format_0x_run 16 (span_id span)) as [Hps Hls].
  destruct (is_valid span); cbn [passes otelTraceID otelSpanID].
  - repeat split; [apply Hlt; [exact Ht|lia]|apply Hls; [exact Hs|lia]|done..].
  - repeat split; done.
Qed.

(** The span of the example response of [models.py]. *)
Lemma filter_record_fixed_width_witness :
  length (otelTraceID (filter_record sample_span)) = 32%nat
  /\ parse_hex 0 (otelTraceID (filter_record sample_span))
     = Some (trace_id sample_span).
Proof.
  destruct (filter_record_fixed_width sample_span)
    as (_ & Hlen & _ & Hparse); [vm_compute; reflexivity..|].
  split; [exact Hlen|]. apply Hparse. reflexivity.
Defined.




(** The record of the sample span carries the trace id of the example in
    [models.py]. *)
Lemma execute_rollback_trace_id_example :
  exists response self' s',
    execute_rollback (runtime_under sample_span all_succeed) default_executor
      (request_for ORDER_SERVICE (txt "v1.0")) host_without_store
    = (Ok (response, self'), s')
    /\ RollbackResponse.trace_id response
       = Some (txt "4a8d3f6b2e1c9a7b5d3e1f9c8a6b4d2e").
Proof. eexists _, _, _. split; vm_compute; reflexivity. Qed.

End TraceFacts.
